(** * Numeris-Task: invoice management backend

    A shallow embedding of the Go packages [helpers], [models], [repository],
    [service] and [controller], and of the schema the migrations create,
    followed by the properties proved about them.

    Conventions.
    - A Go [error] is its message ([err.Error()]); [nil] is [None].
    - A Go function returning [(T, error)] returns a [Result T].
    - [int32] and [int64] are integers of [Z] with the wrap-around written out.
    - A Go [string] is a sequence of bytes, a Rocq [string].
    - Amounts are [float64] in the Go structs and [NUMERIC(10,2)] or
      [NUMERIC(5,2)] in the schema.  A [float64] is represented by the
      decimal numeral it prints as, a column value by its number of
      hundredths; storing an amount rounds it to hundredths or refuses it,
      as the column type does. *)

From Stdlib Require Import ZArith NArith List String Ascii Bool Lia.
From Stdlib Require Import Permutation DecimalString.
Import ListNotations.

Local Open Scope string_scope.
Local Open Scope list_scope.
Local Open Scope Z_scope.

(** ** The Go runtime the program relies on *)

Definition error := string.

Inductive Result (A : Type) : Type :=
| Ok (a : A)
| Err (e : error).
Arguments Ok {A} a.
Arguments Err {A} e.

Definition is_ok {A} (r : Result A) : bool :=
  match r with Ok _ => true | Err _ => false end.

(** Signed machine integers. *)
Definition wrap (bits : Z) (z : Z) : Z :=
  (z + 2 ^ (bits - 1)) mod 2 ^ bits - 2 ^ (bits - 1).

Definition int32 := Z.
Definition in_int32 (z : Z) : bool := (- 2 ^ 31 <=? z) && (z <? 2 ^ 31).
Definition sub32 (a b : int32) : int32 := wrap 32 (a - b).
Definition mul32 (a b : int32) : int32 := wrap 32 (a * b).

Definition int64 := Z.
Definition add64 (a b : int64) : int64 := wrap 64 (a + b).
Definition sub64 (a b : int64) : int64 := wrap 64 (a - b).

Module strings.

(** [strings.Contains]. *)
Fixpoint Contains (s substr : string) : bool :=
  if String.prefix substr s then true
  else match s with
       | EmptyString => false
       | String _ s' => Contains s' substr
       end.

End strings.

Module strconv.

Definition ErrSyntax : error := "invalid syntax".
Definition ErrRange : error := "value out of range".

Definition is_digit (c : ascii) : bool :=
  let n := N_of_ascii c in (48 <=? n)%N && (n <=? 57)%N.

Definition digit (c : ascii) : Z := Z.of_N (N_of_ascii c) - 48.

(** The loop of [ParseUint] for base 10: [n] is the value read so far. *)
Fixpoint ParseUint_loop (maxVal : Z) (s : string) (n : Z) : Result Z :=
  match s with
  | EmptyString => Ok n
  | String c s' =>
      if is_digit c then
        if (2 ^ 64 - 1) / 10 + 1 <=? n then Err ErrRange
        else
          let n1 := n * 10 + digit c in
          if (2 ^ 64 <=? n1) || (maxVal <? n1) then Err ErrRange
          else ParseUint_loop maxVal s' n1
      else Err ErrSyntax
  end.

(** [strconv.ParseUint(s, 10, bitSize)]. *)
Definition ParseUint (s : string) (bitSize : Z) : Result Z :=
  match s with
  | EmptyString => Err ErrSyntax
  | _ => ParseUint_loop (2 ^ bitSize - 1) s 0
  end.

(** [strconv.ParseInt(s, 10, bitSize)]: an optional sign, then
    [ParseUint], then the range of a signed [bitSize]-bit integer.  A
    range error of [ParseUint] comes with the value [2^bitSize - 1], which
    the range check below rejects again. *)
Definition ParseInt (s : string) (bitSize : Z) : Result Z :=
  match s with
  | EmptyString => Err ErrSyntax
  | String c rest =>
      let neg := Ascii.eqb c "-" in
      let s1 := if Ascii.eqb c "+" || neg then rest else s in
      let un := ParseUint s1 bitSize in
      match un with
      | Err e =>
          if String.eqb e ErrRange then Err ErrRange else Err e
      | Ok un =>
          let cutoff := 2 ^ (bitSize - 1) in
          if negb neg && (cutoff <=? un) then Err ErrRange
          else if neg && (cutoff <? un) then Err ErrRange
          else Ok (if neg then - un else un)
      end
  end.

(** [strconv.FormatInt(i, 10)]. *)
Definition FormatInt (i : int64) : string :=
  NilZero.string_of_int (Z.to_int i).

End strconv.

(** ** Package [models] *)

Module uuid.

(** A [uuid.UUID] is sixteen bytes, read here as one number; [Nil] is the
    zero value. *)
Definition UUID := N.
Definition Nil : UUID := 0%N.
Definition eqb : UUID -> UUID -> bool := N.eqb.

End uuid.

Module time.

(** A [time.Time]: an instant, as a number of seconds.  [zero] stands for
    the value of a field that was never set. *)
Definition Time := Z.
Definition zero : Time := 0.

End time.

(** ** [float64], and the NUMERIC columns that store it *)

Module float64.

(** A [float64] that is a number is given by the decimal numeral that
    [strconv.FormatFloat(f, 'f', -1, 64)] prints for it,
    [coefficient * 10 ^ exponent]: the shortest numeral that reads back as
    [f].  For a number written with at most 15 significant digits, as the
    amounts of a request body are, it is that number.  The driver (pgx)
    sends this numeral for a [float64] bound to a NUMERIC parameter.  The
    other values of the type are NaN and the two infinities. *)
Inductive t :=
| Finite (coefficient exponent : Z)
| NaN
| Inf (negative : bool).

(** [a == b]: the same number, whatever the numerals; NaN equals nothing. *)
Definition eqb (a b : t) : bool :=
  match a, b with
  | Finite c1 e1, Finite c2 e2 =>
      let e := Z.min e1 e2 in
      c1 * 10 ^ (e1 - e) =? c2 * 10 ^ (e2 - e)
  | Inf n1, Inf n2 => Bool.eqb n1 n2
  | _, _ => false
  end.

End float64.

Definition float64 := float64.t.

Module NUMERIC.

(** A value of a column [NUMERIC(precision, 2)]: a whole number of
    hundredths of at most [precision] digits, or NaN, which such a column
    accepts.  The two amount columns that may be NULL are taken to hold a
    value, as they do in every row the program writes. *)
Inductive t :=
| Num (hundredths : Z)
| NaN.

(** [coefficient * 10 ^ exponent] rounded to hundredths, a tie away from
    zero, as the server rounds a numeral of a finer scale. *)
Definition round_hundredths (coefficient exponent : Z) : Z :=
  if -2 <=? exponent then coefficient * 10 ^ (exponent + 2)
  else
    let unit := 10 ^ (- 2 - exponent) in
    Z.sgn coefficient * ((Z.abs coefficient + unit / 2) / unit).

(** The value a column of scale 2 takes for a [float64] parameter.  (An
    infinity is refused, see [overflows], and leaves no value.) *)
Definition round (v : float64) : t :=
  match v with
  | float64.Finite c e => Num (round_hundredths c e)
  | float64.NaN => NaN
  | float64.Inf _ => NaN
  end.

(** Whether a column [NUMERIC(precision, 2)] refuses the parameter, with
    the error "numeric field overflow": the rounded value has more than
    [precision] digits, or it is an infinity. *)
Definition overflows (precision : Z) (v : float64) : bool :=
  match v with
  | float64.Finite c e => 10 ^ precision <=? Z.abs (round_hundredths c e)
  | float64.NaN => false
  | float64.Inf _ => true
  end.

(** [+] and [SUM] of the server, which are exact; NaN absorbs. *)
Definition add (a b : t) : t :=
  match a, b with
  | Num x, Num y => Num (x + y)
  | _, _ => NaN
  end.

(** [Scan] into a [*float64]: the [float64] nearest to the value.  It
    prints as the same numeral when that has at most 15 significant
    digits, as every value of a [NUMERIC(10,2)] column has; for a longer
    sum the numeral of the nearest [float64] may differ past its 15th
    digit, which is not computed here. *)
Definition to_float64 (v : t) : float64 :=
  match v with
  | Num h => float64.Finite h (-2)
  | NaN => float64.NaN
  end.

End NUMERIC.

Module models.

Definition InvoiceStatus := string.
Definition InvoiceStatusPaid : InvoiceStatus := "paid".
Definition InvoiceStatusOverDue : InvoiceStatus := "overdue".
Definition InvoiceStatusDraft : InvoiceStatus := "draft".
Definition InvoiceStatusPending : InvoiceStatus := "pending".

Module User.
Record t := mk {
  UserID : uuid.UUID;
  Username : string;
  Email : string;
  Password : string;
  FirstName : string;
  LastName : string;
  ProfilePictureURL : string;
  PhoneNumber : string;
  Address : string;
  CreatedAt : time.Time;
  UpdatedAt : time.Time }.
End User.

Module Customer.
Record t := mk {
  CustomerID : uuid.UUID;
  Name : string;
  Email : string;
  PhoneNumber : string;
  Address : string;
  CreatedAt : time.Time;
  UpdatedAt : time.Time }.
End Customer.

(** The fields of [Invoice] are also the columns of the table [invoices],
    where the amounts are NUMERIC: [t] is the struct, [row] a row of the
    table. *)
Module Invoice.
Record fields (amount : Type) := mk {
  InvoiceID : uuid.UUID;
  InvoiceNumber : string;
  SenderID : uuid.UUID;
  CustomerID : uuid.UUID;
  IssueDate : time.Time;
  DueDate : time.Time;
  TotalAmount : amount;
  DiscountPercentage : amount;
  DiscountedAmount : amount;
  FinalAmount : amount;
  Status : string;
  Currency : string;
  Notes : string;
  CreatedAt : time.Time;
  UpdatedAt : time.Time }.
Arguments mk {amount}.
Arguments InvoiceID {amount}.
Arguments InvoiceNumber {amount}.
Arguments SenderID {amount}.
Arguments CustomerID {amount}.
Arguments IssueDate {amount}.
Arguments DueDate {amount}.
Arguments TotalAmount {amount}.
Arguments DiscountPercentage {amount}.
Arguments DiscountedAmount {amount}.
Arguments FinalAmount {amount}.
Arguments Status {amount}.
Arguments Currency {amount}.
Arguments Notes {amount}.
Arguments CreatedAt {amount}.
Arguments UpdatedAt {amount}.
Abbreviation t := (fields float64).
Abbreviation row := (fields NUMERIC.t).
End Invoice.

(** Likewise [InvoiceItem] and the table [invoice_items]. *)
Module InvoiceItem.
Record fields (amount : Type) := mk {
  ItemID : uuid.UUID;
  InvoiceID : uuid.UUID;
  Name : string;
  Description : string;
  Quantity : Z;
  UnitPrice : amount;
  TotalPrice : amount;
  CreatedAt : time.Time;
  UpdatedAt : time.Time }.
Arguments mk {amount}.
Arguments ItemID {amount}.
Arguments InvoiceID {amount}.
Arguments Name {amount}.
Arguments Description {amount}.
Arguments Quantity {amount}.
Arguments UnitPrice {amount}.
Arguments TotalPrice {amount}.
Arguments CreatedAt {amount}.
Arguments UpdatedAt {amount}.
Abbreviation t := (fields float64).
Abbreviation row := (fields NUMERIC.t).
End InvoiceItem.

Module UserPaymentMethod.
Record t := mk {
  PaymentMethodID : uuid.UUID;
  UserID : uuid.UUID;
  AccountName : string;
  AccountNumber : string;
  BankName : string;
  BankAddress : string;
  SwiftCode : string;
  IsDefault : bool;
  CreatedAt : time.Time;
  UpdatedAt : time.Time }.
End UserPaymentMethod.

Module PaymentInformation.
Record t := mk {
  PaymentInfoID : uuid.UUID;
  InvoiceID : uuid.UUID;
  PaymentMethodID : uuid.UUID;
  CreatedAt : time.Time;
  UpdatedAt : time.Time }.
End PaymentInformation.

Module InvoiceActivity.
Record t := mk {
  ActivityID : uuid.UUID;
  InvoiceID : uuid.UUID;
  UserID : uuid.UUID;
  Title : string;
  Description : string;
  CreatedAt : time.Time }.
End InvoiceActivity.

Module RecentActivity.
Record t := mk {
  ActivityID : uuid.UUID;
  UserID : uuid.UUID;
  Title : string;
  Description : string;
  CreatedAt : time.Time }.
End RecentActivity.

Module InvoiceDetails.
Record t := mk {
  Invoice : Invoice.t;
  SenderName : string;
  SenderEmail : string;
  SenderPhoneNumber : string;
  SenderAddress : string;
  CustomerName : string;
  CustomerEmail : string;
  CustomerPhoneNumber : string;
  PaymentInformation : UserPaymentMethod.t;
  Items : list InvoiceItem.t;
  Activities : list InvoiceActivity.t }.
End InvoiceDetails.

(** request.go *)

Module AddInvoiceActivityRequest.
Record t := mk {
  InvoiceID : string;
  UserID : string;
  Title : string;
  Description : string }.
End AddInvoiceActivityRequest.

Module CreateUserRequest.
Record t := mk {
  Username : string;
  Email : string;
  Password : string;
  FirstName : string;
  LastName : string;
  ProfilePictureURL : string;
  PhoneNumber : string;
  Address : string }.
End CreateUserRequest.

Module AddPaymentMethodRequest.
Record t := mk {
  UserID : string;
  AccountName : string;
  AccountNumber : string;
  BankName : string;
  BankAddress : string;
  SwiftCode : string }.
End AddPaymentMethodRequest.

Module InvoiceInfo.
Record t := mk {
  SenderID : string;
  IssueDate : string;
  DueDate : string;
  TotalAmount : float64;
  DiscountPercentage : float64;
  DiscountedAmount : float64;
  FinalAmount : float64;
  Status : string;
  Currency : string;
  Notes : string }.
End InvoiceInfo.

Module AddCustomerRequest.
Record t := mk {
  Name : string;
  Email : string;
  PhoneNumber : string;
  Address : string }.
End AddCustomerRequest.

Module InvoiceItemDetails.
Record t := mk {
  Name : string;
  Description : string;
  Quantity : Z;
  UnitPrice : float64;
  TotalPrice : float64 }.
End InvoiceItemDetails.

Module CreateInvoiceRequest.
Record t := mk {
  Invoice : InvoiceInfo.t;
  CustomerID : string;
  PaymentMethodID : string;
  InvoiceItems : list InvoiceItemDetails.t }.
End CreateInvoiceRequest.

End models.

(** ** Effects: randomness, state and early return *)

(** What [uuid.New] and the time-seeded generator of [RandomNumber] read:
    an unknown sequence of draws and the position reached in it. *)
Record Entropy := mkEntropy { draws : nat -> N; cursor : nat }.

(** A computation over a store [S]: it may draw, change the store, and
    either return a value or return early with an error (the state reached
    so far is kept, as after a Go [return]). *)
Definition Action (S A : Type) : Type :=
  Entropy * S -> Result A * (Entropy * S).

Definition ret {S A} (a : A) : Action S A := fun w => (Ok a, w).

Definition fail {S A} (e : error) : Action S A := fun w => (Err e, w).

Definition bind {S A B} (m : Action S A) (k : A -> Action S B) : Action S B :=
  fun w =>
    match m w with
    | (Ok a, w') => k a w'
    | (Err e, w') => (Err e, w')
    end.

Declare Scope action_scope.
Delimit Scope action_scope with action.
Notation "x <- m ;; k" := (bind m (fun x => k))
  (at level 61, m at next level, right associativity) : action_scope.
Notation "m ;; k" := (bind m (fun _ => k))
  (at level 61, right associativity) : action_scope.

(** [for _, x := range xs { ... if err != nil { return } }] *)
Fixpoint for_each {S A} (xs : list A) (body : A -> Action S unit)
  : Action S unit :=
  match xs with
  | [] => ret tt
  | x :: xs' => bind (body x) (fun _ => for_each xs' body)
  end.

(** [for _, x := range xs { ys = append(ys, f(x)) }] *)
Fixpoint collect {S A B} (xs : list A) (f : A -> Action S B)
  : Action S (list B) :=
  match xs with
  | [] => ret []
  | x :: xs' =>
      bind (f x) (fun y => bind (collect xs' f) (fun ys => ret (y :: ys)))
  end.

(** [defer cleanup()]: [cleanup] runs when [body] returns, either way. *)
Definition defer {S A} (cleanup : S -> S) (body : Action S A) : Action S A :=
  fun w => let '(r, (e, s)) := body w in (r, (e, cleanup s)).

(** [uuid.New()] *)
Definition uuid_New {S} : Action S uuid.UUID :=
  fun '(e, s) => (Ok (draws e (cursor e)), (mkEntropy (draws e) (Nat.succ (cursor e)), s)).

(** The third-party and standard-library functions the program calls and
    whose code is not part of the repository.  What is proved below holds
    for every implementation of them. *)
Class Libraries := {
  (** [uuid.Parse] of github.com/google/uuid: [None] when it returns an error. *)
  uuid_Parse : string -> option uuid.UUID;
  (** [time.Parse(layout, value)]: [None] when it returns an error. *)
  time_Parse : string -> string -> option time.Time }.

(** golang.org/x/crypto/bcrypt, likewise. *)
Class Bcrypt := {
  (** [bcrypt.GenerateFromPassword(password, cost)] with the salt it draws. *)
  GenerateFromPassword : string -> Z -> N -> Result string;
  (** [bcrypt.CompareHashAndPassword(hashedPassword, password)]. *)
  CompareHashAndPassword : string -> string -> option error;
  DefaultCost : Z }.

(** ** Package [helpers] *)

Module helpers.
Import models.

(** [HashPassword] *)
Definition HashPassword {B : Bcrypt} {S} (password : string) : Action S string :=
  fun '(e, s) =>
    let w' := (mkEntropy (draws e) (Nat.succ (cursor e)), s) in
    match GenerateFromPassword password DefaultCost (draws e (cursor e)) with
    | Err err => (Err ("failed to hash password: " ++ err)%string, w')
    | Ok hashedPassword => (Ok hashedPassword, w')
    end.

(** [CheckPassword] *)
Definition CheckPassword {B : Bcrypt} (password hashedPassword : string)
  : option error :=
  CompareHashAndPassword hashedPassword password.

(** [RandomNumber]: a number between [min] and [max], in decimal.
    [r.Int63n(n)] is some value of [0, n) fixed by the seed; it panics for
    [n <= 0], which the one caller, with [n = 9000000000], rules out. *)
Definition RandomNumber {S} (min max : int64) : Action S string :=
  fun '(e, s) =>
    let n := add64 (sub64 max min) 1 in
    let result := add64 (Z.of_N (draws e (cursor e)) mod n) min in
    (Ok (strconv.FormatInt result), (mkEntropy (draws e) (Nat.succ (cursor e)), s)).

(** [ValidateInvoiceStatus]: [None] when the status is one of the four. *)
Definition ValidateInvoiceStatus (status : string) : option error :=
  if negb (String.eqb status InvoiceStatusPaid)
     && negb (String.eqb status InvoiceStatusDraft)
     && negb (String.eqb status InvoiceStatusOverDue)
     && negb (String.eqb status InvoiceStatusPending)
  then Some ("invalid invoice status: " ++ status)%string
  else None.

End helpers.

(** ** The database: schema, statements and transactions *)

Module postgres.
Import models.

(** The eight tables of the migration, each a list of rows in insertion
    order.  A row has the columns of the table, which are the fields of
    the Go struct of the same name, the amounts being NUMERIC. *)
Record Database := mkDatabase {
  users : list User.t;
  customers : list Customer.t;
  invoices : list Invoice.row;
  invoice_items : list InvoiceItem.row;
  user_payment_methods : list UserPaymentMethod.t;
  payment_information : list PaymentInformation.t;
  invoice_activities : list InvoiceActivity.t;
  recent_activities : list RecentActivity.t }.

Definition has {A} (key : A -> uuid.UUID) (id : uuid.UUID) (rows : list A) : bool :=
  existsb (fun r => uuid.eqb (key r) id) rows.

Definition has_text {A} (key : A -> string) (v : string) (rows : list A) : bool :=
  existsb (fun r => String.eqb (key r) v) rows.

(** *** INSERT statements

    Each brings the amounts to the type of their column, which rounds
    them or fails, checks what the schema declares for its table (primary
    key, UNIQUE, CHECK, FOREIGN KEY) and appends the row.  Columns left
    out of the column list take their default, [CURRENT_TIMESTAMP] for
    [created_at] and [updated_at].  Length limits of the text columns are
    not checked here: like every other reason a statement can fail for,
    they are covered by the faults of [Server] below. *)

Definition insert_user (now : time.Time) (u : User.t) (d : Database)
  : Result Database :=
  if has User.UserID (User.UserID u) (users d) then
    Err "duplicate key value violates unique constraint users_pkey"
  else if has_text User.Username (User.Username u) (users d) then
    Err "duplicate key value violates unique constraint users_username_key"
  else if has_text User.Email (User.Email u) (users d) then
    Err "duplicate key value violates unique constraint users_email_key"
  else
    let row := User.mk (User.UserID u) (User.Username u) (User.Email u)
                 (User.Password u) (User.FirstName u) (User.LastName u)
                 (User.ProfilePictureURL u) (User.PhoneNumber u)
                 (User.Address u) now now in
    Ok (mkDatabase (users d ++ [row]) (customers d) (invoices d)
          (invoice_items d) (user_payment_methods d) (payment_information d)
          (invoice_activities d) (recent_activities d)).

Definition insert_customer (now : time.Time) (c : Customer.t) (d : Database)
  : Result Database :=
  if has Customer.CustomerID (Customer.CustomerID c) (customers d) then
    Err "duplicate key value violates unique constraint customers_pkey"
  else
    let row := Customer.mk (Customer.CustomerID c) (Customer.Name c)
                 (Customer.Email c) (Customer.PhoneNumber c)
                 (Customer.Address c) now now in
    Ok (mkDatabase (users d) (customers d ++ [row]) (invoices d)
          (invoice_items d) (user_payment_methods d) (payment_information d)
          (invoice_activities d) (recent_activities d)).

Definition insert_user_payment_method (now : time.Time)
  (m : UserPaymentMethod.t) (d : Database) : Result Database :=
  if has UserPaymentMethod.PaymentMethodID
       (UserPaymentMethod.PaymentMethodID m) (user_payment_methods d) then
    Err "duplicate key value violates unique constraint user_payment_methods_pkey"
  else if negb (has User.UserID (UserPaymentMethod.UserID m) (users d)) then
    Err "insert on user_payment_methods violates foreign key constraint on user_id"
  else
    let row := UserPaymentMethod.mk (UserPaymentMethod.PaymentMethodID m)
                 (UserPaymentMethod.UserID m) (UserPaymentMethod.AccountName m)
                 (UserPaymentMethod.AccountNumber m) (UserPaymentMethod.BankName m)
                 (UserPaymentMethod.BankAddress m) (UserPaymentMethod.SwiftCode m)
                 false now now in
    Ok (mkDatabase (users d) (customers d) (invoices d) (invoice_items d)
          (user_payment_methods d ++ [row]) (payment_information d)
          (invoice_activities d) (recent_activities d)).

Definition status_check (status : string) : bool :=
  String.eqb status "draft" || String.eqb status "pending"
  || String.eqb status "paid" || String.eqb status "overdue".

(** The row of [invoices] for the thirteen values of the statement. *)
Definition invoice_row (now : time.Time) (i : Invoice.t)
  (customerID : uuid.UUID) : Invoice.row :=
  Invoice.mk (Invoice.InvoiceID i) (Invoice.InvoiceNumber i)
    (Invoice.SenderID i) customerID (Invoice.IssueDate i) (Invoice.DueDate i)
    (NUMERIC.round (Invoice.TotalAmount i))
    (NUMERIC.round (Invoice.DiscountPercentage i))
    (NUMERIC.round (Invoice.DiscountedAmount i))
    (NUMERIC.round (Invoice.FinalAmount i)) (Invoice.Status i)
    (Invoice.Currency i) (Invoice.Notes i) now now.

Definition insert_invoice (now : time.Time) (i : Invoice.t)
  (customerID : uuid.UUID) (d : Database) : Result Database :=
  if NUMERIC.overflows 10 (Invoice.TotalAmount i)
     || NUMERIC.overflows 5 (Invoice.DiscountPercentage i)
     || NUMERIC.overflows 10 (Invoice.DiscountedAmount i)
     || NUMERIC.overflows 10 (Invoice.FinalAmount i) then
    Err "numeric field overflow"
  else if negb (status_check (Invoice.Status i)) then
    Err "new row for relation invoices violates check constraint invoices_status_check"
  else if has Invoice.InvoiceID (Invoice.InvoiceID i) (invoices d) then
    Err "duplicate key value violates unique constraint invoices_pkey"
  else if has_text Invoice.InvoiceNumber (Invoice.InvoiceNumber i) (invoices d) then
    Err "duplicate key value violates unique constraint invoices_invoice_number_key"
  else if negb (has User.UserID (Invoice.SenderID i) (users d)) then
    Err "insert on invoices violates foreign key constraint on sender_id"
  else if negb (has Customer.CustomerID customerID (customers d)) then
    Err "insert on invoices violates foreign key constraint on customer_id"
  else
    Ok (mkDatabase (users d) (customers d)
          (invoices d ++ [invoice_row now i customerID])
          (invoice_items d) (user_payment_methods d) (payment_information d)
          (invoice_activities d) (recent_activities d)).

(** The row of [invoice_items] for the seven values of the statement. *)
Definition item_row (now : time.Time) (invoiceID : uuid.UUID)
  (it : InvoiceItem.t) : InvoiceItem.row :=
  InvoiceItem.mk (InvoiceItem.ItemID it) invoiceID (InvoiceItem.Name it)
    (InvoiceItem.Description it) (InvoiceItem.Quantity it)
    (NUMERIC.round (InvoiceItem.UnitPrice it))
    (NUMERIC.round (InvoiceItem.TotalPrice it)) now now.

Definition insert_invoice_item (now : time.Time) (invoiceID : uuid.UUID)
  (it : InvoiceItem.t) (d : Database) : Result Database :=
  if NUMERIC.overflows 10 (InvoiceItem.UnitPrice it)
     || NUMERIC.overflows 10 (InvoiceItem.TotalPrice it) then
    Err "numeric field overflow"
  else if has InvoiceItem.ItemID (InvoiceItem.ItemID it) (invoice_items d) then
    Err "duplicate key value violates unique constraint invoice_items_pkey"
  else if negb (has Invoice.InvoiceID invoiceID (invoices d)) then
    Err "insert on invoice_items violates foreign key constraint on invoice_id"
  else
    Ok (mkDatabase (users d) (customers d) (invoices d)
          (invoice_items d ++ [item_row now invoiceID it])
          (user_payment_methods d) (payment_information d)
          (invoice_activities d) (recent_activities d)).

Definition payment_information_row (now : time.Time)
  (paymentInfoID invoiceID paymentMethodID : uuid.UUID) : PaymentInformation.t :=
  PaymentInformation.mk paymentInfoID invoiceID paymentMethodID now now.

Definition insert_payment_information (now : time.Time)
  (paymentInfoID invoiceID paymentMethodID : uuid.UUID) (d : Database)
  : Result Database :=
  if has PaymentInformation.PaymentInfoID paymentInfoID (payment_information d) then
    Err "duplicate key value violates unique constraint payment_information_pkey"
  else if negb (has Invoice.InvoiceID invoiceID (invoices d)) then
    Err "insert on payment_information violates foreign key constraint on invoice_id"
  else if negb (has UserPaymentMethod.PaymentMethodID paymentMethodID
                  (user_payment_methods d)) then
    Err "insert on payment_information violates foreign key constraint on payment_method_id"
  else
    Ok (mkDatabase (users d) (customers d) (invoices d) (invoice_items d)
          (user_payment_methods d)
          (payment_information d
             ++ [payment_information_row now paymentInfoID invoiceID paymentMethodID])
          (invoice_activities d) (recent_activities d)).

Definition invoice_activity_row (now : time.Time)
  (activityID invoiceID userID : uuid.UUID) (title description : string)
  : InvoiceActivity.t :=
  InvoiceActivity.mk activityID invoiceID userID title description now.

Definition insert_invoice_activity (now : time.Time)
  (activityID invoiceID userID : uuid.UUID) (title description : string)
  (d : Database) : Result Database :=
  if has InvoiceActivity.ActivityID activityID (invoice_activities d) then
    Err "duplicate key value violates unique constraint invoice_activities_pkey"
  else if negb (has Invoice.InvoiceID invoiceID (invoices d)) then
    Err "insert on invoice_activities violates foreign key constraint on invoice_id"
  else if negb (has User.UserID userID (users d)) then
    Err "insert on invoice_activities violates foreign key constraint on user_id"
  else
    Ok (mkDatabase (users d) (customers d) (invoices d) (invoice_items d)
          (user_payment_methods d) (payment_information d)
          (invoice_activities d
             ++ [invoice_activity_row now activityID invoiceID userID title description])
          (recent_activities d)).

Definition recent_activity_row (now : time.Time)
  (activityID userID : uuid.UUID) (title description : string)
  : RecentActivity.t :=
  RecentActivity.mk activityID userID title description now.

Definition insert_recent_activity (now : time.Time)
  (activityID userID : uuid.UUID) (title description : string)
  (d : Database) : Result Database :=
  if has RecentActivity.ActivityID activityID (recent_activities d) then
    Err "duplicate key value violates unique constraint recent_activities_pkey"
  else if negb (has User.UserID userID (users d)) then
    Err "insert on recent_activities violates foreign key constraint on user_id"
  else
    Ok (mkDatabase (users d) (customers d) (invoices d) (invoice_items d)
          (user_payment_methods d) (payment_information d)
          (invoice_activities d)
          (recent_activities d
             ++ [recent_activity_row now activityID userID title description])).

(** *** SELECT: joins, aggregates, ordering, LIMIT and OFFSET *)

Definition join {A B} (l : list A) (r : list B) (on : A -> B -> bool)
  : list (A * B) :=
  flat_map (fun a => map (pair a) (filter (on a) r)) l.

(** LEFT JOIN: a left row without a match is kept, with NULLs ([None]). *)
Definition left_join {A B} (l : list A) (r : list B) (on : A -> B -> bool)
  : list (A * option B) :=
  flat_map (fun a =>
              match filter (on a) r with
              | [] => [(a, None)]
              | ms => map (fun b => (a, Some b)) ms
              end) l.

(** SUM is NULL over no rows. *)
Definition SUM (vs : list NUMERIC.t) : option NUMERIC.t :=
  match vs with
  | [] => None
  | _ => Some (fold_left NUMERIC.add vs (NUMERIC.Num 0))
  end.

Definition COALESCE {A} (v : option A) (default : A) : A :=
  match v with Some a => a | None => default end.

Fixpoint insert_sorted {A} (before : A -> A -> bool) (x : A) (l : list A) : list A :=
  match l with
  | [] => [x]
  | y :: l' => if before y x then y :: insert_sorted before x l' else x :: l
  end.

(** ORDER BY: rows that compare equal stay in table order (the engine
    leaves their order open). *)
Definition order_by {A} (before : A -> A -> bool) (l : list A) : list A :=
  fold_left (fun acc x => insert_sorted before x acc) l [].

Definition asc {A} (key : A -> Z) (x y : A) : bool := key x <=? key y.
Definition desc {A} (key : A -> Z) (x y : A) : bool := key y <=? key x.

(** LIMIT and OFFSET, both rejected when negative. *)
Definition limit_offset {A} (limit offset : int32) (rows : list A)
  : Result (list A) :=
  if offset <? 0 then Err "OFFSET must not be negative"
  else if limit <? 0 then Err "LIMIT must not be negative"
  else Ok (firstn (Z.to_nat limit) (skipn (Z.to_nat offset) rows)).

(** *** The server as one connection pool sees it *)

Inductive TxStatus :=
| NoTx
| Open (working : Database)   (* the rows as the transaction sees them *)
| Aborted.                    (* a statement failed: only ROLLBACK is left *)

(** [tables] holds the committed rows.  [faults] says, for each coming
    round trip to the server in turn, whether it fails for a reason of its
    own (lost connection, cancelled context, a limit the statements above
    do not check) and with which message.  [now] is the server's clock. *)
Record Server := mkServer {
  tables : Database;
  tx : TxStatus;
  faults : list (option error);
  now : time.Time }.

(** The fate of the next round trip; an exhausted list means no fault. *)
Definition next_fault (s : Server) : option error * Server :=
  (hd None (faults s), mkServer (tables s) (tx s) (tl (faults s)) (now s)).

Definition ErrTxClosed : error := "tx is closed".
Definition ErrNoRows : error := "no rows in result set".

(** [pool.Begin] *)
Definition Begin : Action Server unit :=
  fun '(e, s) =>
    let '(f, s) := next_fault s in
    match f with
    | Some err => (Err err, (e, s))
    | None => (Ok tt, (e, mkServer (tables s) (Open (tables s)) (faults s) (now s)))
    end.

(** [tx.Exec] and [tx.QueryRow(...).Scan] of a statement that writes. *)
Definition tx_Exec (stmt : time.Time -> Database -> Result Database)
  : Action Server unit :=
  fun '(e, s) =>
    match tx s with
    | NoTx => (Err ErrTxClosed, (e, s))
    | Aborted =>
        (Err "current transaction is aborted, commands ignored until end of transaction block",
         (e, s))
    | Open w =>
        let '(f, s) := next_fault s in
        match f with
        | Some err => (Err err, (e, mkServer (tables s) Aborted (faults s) (now s)))
        | None =>
            match stmt (now s) w with
            | Err err => (Err err, (e, mkServer (tables s) Aborted (faults s) (now s)))
            | Ok w' => (Ok tt, (e, mkServer (tables s) (Open w') (faults s) (now s)))
            end
        end
    end.

(** [tx.Commit] *)
Definition Commit : Action Server unit :=
  fun '(e, s) =>
    match tx s with
    | NoTx => (Err ErrTxClosed, (e, s))
    | Aborted =>
        (Err "commit unexpectedly resulted in rollback",
         (e, mkServer (tables s) NoTx (faults s) (now s)))
    | Open w =>
        let '(f, s) := next_fault s in
        match f with
        | Some err => (Err err, (e, mkServer (tables s) NoTx (faults s) (now s)))
        | None => (Ok tt, (e, mkServer w NoTx (faults s) (now s)))
        end
    end.

(** [tx.Rollback], whose error the callers drop: the rows of an open
    transaction are discarded; after [Commit] there is nothing to do. *)
Definition Rollback (s : Server) : Server :=
  mkServer (tables s) NoTx (faults s) (now s).

(** A statement sent through the pool outside any transaction. *)
Definition pool_Query {A} (q : Database -> Result A) : Action Server A :=
  fun '(e, s) =>
    let '(f, s) := next_fault s in
    match f with
    | Some err => (Err err, (e, s))
    | None => (q (tables s), (e, s))
    end.

Definition pool_Exec (stmt : time.Time -> Database -> Result Database)
  : Action Server unit :=
  fun '(e, s) =>
    let '(f, s) := next_fault s in
    match f with
    | Some err => (Err err, (e, s))
    | None =>
        match stmt (now s) (tables s) with
        | Err err => (Err err, (e, s))
        | Ok d => (Ok tt, (e, mkServer d (tx s) (faults s) (now s)))
        end
    end.

(** *** Scanning a column into a Go variable (pgx v5)

    A NULL cannot be stored into a plain [string]: [Scan] fails.
    [uuid.UUID] is a [sql.Scanner] that accepts NULL and leaves the
    variable as it is, here the zero value. *)
Definition scan_string (v : option string) : Result string :=
  match v with
  | Some s => Ok s
  | None => Err "cannot scan NULL into *string"
  end.

Definition scan_uuid (v : option uuid.UUID) : Result uuid.UUID :=
  match v with
  | Some u => Ok u
  | None => Ok uuid.Nil
  end.

End postgres.

(** ** Package [repository] *)

Module repository.
Import models postgres.

(** repo.go: the two interfaces, over the store [S] of an implementation. *)

Module UserRepository.
Record t (S : Type) := mk {
  CreateUser : User.t -> Action S uuid.UUID;
  AddCustomer : Customer.t -> Action S uuid.UUID;
  AddPaymentMethod : UserPaymentMethod.t -> Action S uuid.UUID }.
Arguments CreateUser {S} _ _ _.
Arguments AddCustomer {S} _ _ _.
Arguments AddPaymentMethod {S} _ _ _.
End UserRepository.

Module InvoiceRepository.
Record t (S : Type) := mk {
  GetTotalByStatus : InvoiceStatus -> Action S (float64 * Z);
  CreateInvoice : Invoice.t -> list InvoiceItem.t -> uuid.UUID ->
                  PaymentInformation.t -> Action S uuid.UUID;
  GetInvoiceDetails : uuid.UUID -> Action S InvoiceDetails.t;
  AddInvoiceActivity : InvoiceActivity.t -> Action S uuid.UUID;
  GetRecentInvoices : uuid.UUID -> int32 -> int32 -> Action S (list Invoice.t);
  GetRecentActivities : uuid.UUID -> int32 -> int32 ->
                        Action S (list RecentActivity.t);
  GetInvoiceActivities : uuid.UUID -> uuid.UUID -> int32 -> int32 ->
                         Action S (list InvoiceActivity.t) }.
Arguments GetTotalByStatus {S} _ _ _.
Arguments CreateInvoice {S} _ _ _ _ _ _.
Arguments GetInvoiceDetails {S} _ _ _.
Arguments AddInvoiceActivity {S} _ _ _.
Arguments GetRecentInvoices {S} _ _ _ _ _.
Arguments GetRecentActivities {S} _ _ _ _ _.
Arguments GetInvoiceActivities {S} _ _ _ _ _ _.
End InvoiceRepository.

(** invoice.go *)
Module invoiceRepoImpl.
Local Open Scope action_scope.

Definition creation_title : string := "Invoice Creation".

Definition creation_description (invoice : Invoice.t) : string :=
  ("Created invoice " ++ Invoice.InvoiceNumber invoice)%string.

(** [CreateInvoice].  [RETURNING invoice_id] is scanned back into
    [invoice.InvoiceID]: it is the identifier the statement was given. *)
Definition CreateInvoice (invoice : Invoice.t) (items : list InvoiceItem.t)
  (customerID : uuid.UUID) (paymentInfo : PaymentInformation.t)
  : Action Server uuid.UUID :=
  Begin ;;
  defer Rollback
    ((* insert invoice *)
     tx_Exec (fun now => insert_invoice now invoice customerID) ;;
     (* insert invoice items *)
     for_each items
       (fun item =>
          tx_Exec (fun now =>
                     insert_invoice_item now (Invoice.InvoiceID invoice) item)) ;;
     (* insert payment information *)
     tx_Exec (fun now =>
                insert_payment_information now
                  (PaymentInformation.PaymentInfoID paymentInfo)
                  (Invoice.InvoiceID invoice)
                  (PaymentInformation.PaymentMethodID paymentInfo)) ;;
     (* create invoice activity *)
     activityID <- uuid_New ;;
     tx_Exec (fun now =>
                insert_invoice_activity now activityID
                  (Invoice.InvoiceID invoice) (Invoice.SenderID invoice)
                  creation_title (creation_description invoice)) ;;
     (* add to recent activities *)
     tx_Exec (fun now =>
                insert_recent_activity now activityID
                  (Invoice.SenderID invoice)
                  creation_title (creation_description invoice)) ;;
     Commit ;;
     ret (Invoice.InvoiceID invoice)).

(** The FROM and WHERE clauses of the first query of
    [GetInvoiceDetails]: invoice, sender, customer, and through two
    LEFT JOINs the payment information and its payment method. *)
Definition invoice_details_rows (invoiceID : uuid.UUID) (d : Database)
  : list (Invoice.row * User.t * Customer.t
          * option PaymentInformation.t * option UserPaymentMethod.t) :=
  let j1 := join (invoices d) (users d)
              (fun i s => uuid.eqb (Invoice.SenderID i) (User.UserID s)) in
  let j2 := join j1 (customers d)
              (fun '(i, _) c =>
                 uuid.eqb (Invoice.CustomerID i) (Customer.CustomerID c)) in
  let j3 := left_join j2 (payment_information d)
              (fun '(i, _, _) pi =>
                 uuid.eqb (Invoice.InvoiceID i) (PaymentInformation.InvoiceID pi)) in
  let j4 := left_join j3 (user_payment_methods d)
              (fun '(_, pi) pm =>
                 match pi with
                 | Some pi =>
                     uuid.eqb (PaymentInformation.PaymentMethodID pi)
                       (UserPaymentMethod.PaymentMethodID pm)
                 | None => false
                 end) in
  filter (fun '(i, _, _, _, _) => uuid.eqb (Invoice.InvoiceID i) invoiceID) j4.

(** The fifteen columns of [i] as [Scan] stores them into
    [details.Invoice]. *)
Definition scan_invoice (r : Invoice.row) : Invoice.t :=
  Invoice.mk (Invoice.InvoiceID r) (Invoice.InvoiceNumber r)
    (Invoice.SenderID r) (Invoice.CustomerID r) (Invoice.IssueDate r)
    (Invoice.DueDate r) (NUMERIC.to_float64 (Invoice.TotalAmount r))
    (NUMERIC.to_float64 (Invoice.DiscountPercentage r))
    (NUMERIC.to_float64 (Invoice.DiscountedAmount r))
    (NUMERIC.to_float64 (Invoice.FinalAmount r)) (Invoice.Status r)
    (Invoice.Currency r) (Invoice.Notes r) (Invoice.CreatedAt r)
    (Invoice.UpdatedAt r).

(** [Scan] of the first query: the twenty-nine columns go into the
    fields of [details] in order, and the first that cannot be stored
    ends the scan.  Columns 0 to 21 come from the inner joins; columns
    22 to 28 are those of [pm] and are NULL without a payment method. *)
Definition scan_details
  (row : Invoice.row * User.t * Customer.t
         * option PaymentInformation.t * option UserPaymentMethod.t)
  : Result InvoiceDetails.t :=
  let '(i, s, c, _, pm) := row in
  match scan_uuid (option_map UserPaymentMethod.PaymentMethodID pm) with
  | Err e => Err e
  | Ok paymentMethodID =>
  match scan_uuid (option_map UserPaymentMethod.UserID pm) with
  | Err e => Err e
  | Ok userID =>
  match scan_string (option_map UserPaymentMethod.AccountName pm) with
  | Err e => Err ("can't scan into dest[24]: " ++ e)%string
  | Ok accountName =>
  match scan_string (option_map UserPaymentMethod.AccountNumber pm) with
  | Err e => Err ("can't scan into dest[25]: " ++ e)%string
  | Ok accountNumber =>
  match scan_string (option_map UserPaymentMethod.BankName pm) with
  | Err e => Err ("can't scan into dest[26]: " ++ e)%string
  | Ok bankName =>
  match scan_string (option_map UserPaymentMethod.BankAddress pm) with
  | Err e => Err ("can't scan into dest[27]: " ++ e)%string
  | Ok bankAddress =>
  match scan_string (option_map UserPaymentMethod.SwiftCode pm) with
  | Err e => Err ("can't scan into dest[28]: " ++ e)%string
  | Ok swiftCode =>
      Ok (InvoiceDetails.mk (scan_invoice i)
            (User.FirstName s ++ " " ++ User.LastName s)%string
            (User.Email s) (User.PhoneNumber s) (User.Address s)
            (Customer.Name c) (Customer.Email c) (Customer.PhoneNumber c)
            (UserPaymentMethod.mk paymentMethodID userID accountName
               accountNumber bankName bankAddress swiftCode
               false time.zero time.zero)
            [] [])
  end end end end end end end.

(** The seven columns the second query selects, as [rows.Scan] stores
    them: the two timestamps of the struct stay zero. *)
Definition scan_item (r : InvoiceItem.row) : InvoiceItem.t :=
  InvoiceItem.mk (InvoiceItem.ItemID r) (InvoiceItem.InvoiceID r)
    (InvoiceItem.Name r) (InvoiceItem.Description r) (InvoiceItem.Quantity r)
    (NUMERIC.to_float64 (InvoiceItem.UnitPrice r))
    (NUMERIC.to_float64 (InvoiceItem.TotalPrice r)) time.zero time.zero.

(** [GetInvoiceDetails] *)
Definition GetInvoiceDetails (invoiceID : uuid.UUID)
  : Action Server InvoiceDetails.t :=
  (* get invoice information *)
  details <- pool_Query (fun d =>
               match invoice_details_rows invoiceID d with
               | [] => Err ErrNoRows
               | row :: _ => scan_details row
               end) ;;
  (* get invoice items *)
  items <- pool_Query (fun d =>
             Ok (map scan_item
                   (filter (fun r => uuid.eqb (InvoiceItem.InvoiceID r) invoiceID)
                      (invoice_items d)))) ;;
  (* get invoice activities *)
  activities <- pool_Query (fun d =>
                  Ok (order_by (asc InvoiceActivity.CreatedAt)
                        (filter (fun r =>
                                   uuid.eqb (InvoiceActivity.InvoiceID r) invoiceID)
                           (invoice_activities d)))) ;;
  ret (InvoiceDetails.mk (InvoiceDetails.Invoice details)
         (InvoiceDetails.SenderName details) (InvoiceDetails.SenderEmail details)
         (InvoiceDetails.SenderPhoneNumber details)
         (InvoiceDetails.SenderAddress details)
         (InvoiceDetails.CustomerName details)
         (InvoiceDetails.CustomerEmail details)
         (InvoiceDetails.CustomerPhoneNumber details)
         (InvoiceDetails.PaymentInformation details)
         items activities).

(** [AddInvoiceActivity] *)
Definition AddInvoiceActivity (activity : InvoiceActivity.t)
  : Action Server uuid.UUID :=
  pool_Exec (fun now =>
               insert_invoice_activity now
                 (InvoiceActivity.ActivityID activity)
                 (InvoiceActivity.InvoiceID activity)
                 (InvoiceActivity.UserID activity)
                 (InvoiceActivity.Title activity)
                 (InvoiceActivity.Description activity)) ;;
  ret (InvoiceActivity.ActivityID activity).

(** [GetTotalByStatus]:
    [SELECT COUNT( * ), COALESCE(SUM(final_amount), 0) FROM invoices
     WHERE status = $1], returned as (total, count). *)
Definition GetTotalByStatus (status : InvoiceStatus)
  : Action Server (float64 * Z) :=
  pool_Query (fun d =>
    let rows := filter (fun i => String.eqb (Invoice.Status i) status)
                  (invoices d) in
    let count := Z.of_nat (List.length rows) in
    let totalAmount := COALESCE (SUM (map Invoice.FinalAmount rows))
                         (NUMERIC.Num 0) in
    Ok (NUMERIC.to_float64 totalAmount, count)).

(** [GetRecentInvoices] *)
Definition GetRecentInvoices (senderID : uuid.UUID) (limit offset : int32)
  : Action Server (list Invoice.t) :=
  pool_Query (fun d =>
    match limit_offset limit offset
            (order_by (desc Invoice.CreatedAt)
               (filter (fun i => uuid.eqb (Invoice.SenderID i) senderID)
                  (invoices d))) with
    | Err err => Err err
    | Ok rows => Ok (map scan_invoice rows)
    end).

(** [GetRecentActivities] *)
Definition GetRecentActivities (userID : uuid.UUID) (limit offset : int32)
  : Action Server (list RecentActivity.t) :=
  pool_Query (fun d =>
    limit_offset limit offset
      (order_by (desc RecentActivity.CreatedAt)
         (filter (fun a => uuid.eqb (RecentActivity.UserID a) userID)
            (recent_activities d)))).

(** [GetInvoiceActivities] *)
Definition GetInvoiceActivities (userID invoiceID : uuid.UUID)
  (limit offset : int32) : Action Server (list InvoiceActivity.t) :=
  pool_Query (fun d =>
    limit_offset limit offset
      (order_by (desc InvoiceActivity.CreatedAt)
         (filter (fun a =>
                    uuid.eqb (InvoiceActivity.UserID a) userID
                    && uuid.eqb (InvoiceActivity.InvoiceID a) invoiceID)
            (invoice_activities d)))).

Definition new : InvoiceRepository.t Server :=
  InvoiceRepository.mk Server GetTotalByStatus CreateInvoice GetInvoiceDetails
    AddInvoiceActivity GetRecentInvoices GetRecentActivities
    GetInvoiceActivities.

End invoiceRepoImpl.

(** user.go *)
Module userRepoImpl.
Local Open Scope action_scope.

Definition CreateUser (user : User.t) : Action Server uuid.UUID :=
  pool_Exec (fun now => insert_user now user) ;;
  ret (User.UserID user).

Definition AddCustomer (customer : Customer.t) : Action Server uuid.UUID :=
  pool_Exec (fun now => insert_customer now customer) ;;
  ret (Customer.CustomerID customer).

Definition AddPaymentMethod (paymentMethod : UserPaymentMethod.t)
  : Action Server uuid.UUID :=
  pool_Exec (fun now => insert_user_payment_method now paymentMethod) ;;
  ret (UserPaymentMethod.PaymentMethodID paymentMethod).

Definition new : UserRepository.t Server :=
  UserRepository.mk Server CreateUser AddCustomer AddPaymentMethod.

End userRepoImpl.

End repository.

(** ** Package [mocked]: the repositories the unit tests substitute

    Each method records the call with its arguments and returns what the
    test prepared for it. *)

Module mocked.
Import models repository.

Inductive Call :=
| GetTotalByStatus (status : InvoiceStatus)
| CreateInvoice (invoice : Invoice.t) (items : list InvoiceItem.t)
    (customer : uuid.UUID) (paymentInfo : PaymentInformation.t)
| GetInvoiceDetails (invoiceID : uuid.UUID)
| AddInvoiceActivity (activity : InvoiceActivity.t)
| GetRecentInvoices (senderID : uuid.UUID) (limit offset : int32)
| GetRecentActivities (userID : uuid.UUID) (limit offset : int32)
| GetInvoiceActivities (userID invoiceID : uuid.UUID) (limit offset : int32)
| CreateUser (user : User.t)
| AddCustomer (customer : Customer.t)
| AddPaymentMethod (paymentMethod : UserPaymentMethod.t).

Record Returns := mkReturns {
  total : Result (float64 * Z);
  id : Result uuid.UUID;
  details : Result InvoiceDetails.t;
  invoices : Result (list Invoice.t);
  recent : Result (list RecentActivity.t);
  activities : Result (list InvoiceActivity.t) }.

Definition record {A} (c : Call) (r : Result A) : Action (list Call) A :=
  fun '(e, calls) => (r, (e, calls ++ [c])).

Definition MockInvoiceRepository (r : Returns) : InvoiceRepository.t (list Call) :=
  InvoiceRepository.mk (list Call)
    (fun status => record (GetTotalByStatus status) (total r))
    (fun invoice items customer paymentInfo =>
       record (CreateInvoice invoice items customer paymentInfo) (id r))
    (fun invoiceID => record (GetInvoiceDetails invoiceID) (details r))
    (fun activity => record (AddInvoiceActivity activity) (id r))
    (fun senderID limit offset =>
       record (GetRecentInvoices senderID limit offset) (invoices r))
    (fun userID limit offset =>
       record (GetRecentActivities userID limit offset) (recent r))
    (fun userID invoiceID limit offset =>
       record (GetInvoiceActivities userID invoiceID limit offset) (activities r)).

Definition MockUserRepository (r : Returns) : UserRepository.t (list Call) :=
  UserRepository.mk (list Call)
    (fun user => record (CreateUser user) (id r))
    (fun customer => record (AddCustomer customer) (id r))
    (fun paymentMethod => record (AddPaymentMethod paymentMethod) (id r)).

End mocked.

(** ** Package [service] *)

Module service.
Import models repository.
Local Open Scope action_scope.

(** [v, err := f(...); if err != nil { return uuid.Nil, fmt.Errorf(msg) }] *)
Definition or_fail {S A} (v : option A) (msg : error) : Action S A :=
  match v with
  | Some a => ret a
  | None => fail msg
  end.

(** [if err := f(...); err != nil { return uuid.Nil, err }] *)
Definition check {S} (err : option error) : Action S unit :=
  match err with
  | Some e => fail e
  | None => ret tt
  end.

(** invoice.go *)
Section invoiceServiceImpl.
Context {L : Libraries} {S : Type} (invoice : InvoiceRepository.t S).

Definition layout : string := "2006-01-02".

(** [CreateInvoice] *)
Definition CreateInvoice (data : CreateInvoiceRequest.t) : Action S uuid.UUID :=
  let info := CreateInvoiceRequest.Invoice data in
  invoiceID <- uuid_New ;;
  senderID <- or_fail (uuid_Parse (InvoiceInfo.SenderID info)) "invalid sender id" ;;
  customerID <- or_fail (uuid_Parse (CreateInvoiceRequest.CustomerID data))
                  "invalid customer id" ;;
  check (helpers.ValidateInvoiceStatus (InvoiceInfo.Status info)) ;;
  issueDate <- or_fail (time_Parse layout (InvoiceInfo.IssueDate info))
                 "issue date has invalid date format" ;;
  dueDate <- or_fail (time_Parse layout (InvoiceInfo.DueDate info))
               "due date has invalid date format" ;;
  invoiceNumber <- helpers.RandomNumber 1000000000 9999999999 ;;
  let invoice_ :=
    Invoice.mk invoiceID invoiceNumber senderID customerID issueDate dueDate
      (InvoiceInfo.TotalAmount info) (InvoiceInfo.DiscountPercentage info)
      (InvoiceInfo.DiscountedAmount info) (InvoiceInfo.FinalAmount info)
      (InvoiceInfo.Status info) (InvoiceInfo.Currency info)
      (InvoiceInfo.Notes info) time.zero time.zero in
  items <- collect (CreateInvoiceRequest.InvoiceItems data)
             (fun item =>
                itemID <- uuid_New ;;
                ret (InvoiceItem.mk itemID invoiceID
                       (InvoiceItemDetails.Name item)
                       (InvoiceItemDetails.Description item)
                       (InvoiceItemDetails.Quantity item)
                       (InvoiceItemDetails.UnitPrice item)
                       (InvoiceItemDetails.TotalPrice item)
                       time.zero time.zero)) ;;
  paymentInfoID <- uuid_New ;;
  paymentMethodID <- or_fail (uuid_Parse (CreateInvoiceRequest.PaymentMethodID data))
                       "invalid payment method id" ;;
  let paymentInfo :=
    PaymentInformation.mk paymentInfoID invoiceID paymentMethodID
      time.zero time.zero in
  InvoiceRepository.CreateInvoice invoice invoice_ items customerID paymentInfo.

(** [GetInvoiceDetails] *)
Definition GetInvoiceDetails (invoiceID : uuid.UUID) : Action S InvoiceDetails.t :=
  InvoiceRepository.GetInvoiceDetails invoice invoiceID.

(** [AddInvoiceActivity] *)
Definition AddInvoiceActivity (activity : AddInvoiceActivityRequest.t)
  : Action S uuid.UUID :=
  invoiceID <- or_fail (uuid_Parse (AddInvoiceActivityRequest.InvoiceID activity))
                 "invalid invoice id" ;;
  userID <- or_fail (uuid_Parse (AddInvoiceActivityRequest.UserID activity))
              "invalid user id" ;;
  activityID <- uuid_New ;;
  InvoiceRepository.AddInvoiceActivity invoice
    (InvoiceActivity.mk activityID invoiceID userID
       (AddInvoiceActivityRequest.Title activity)
       (AddInvoiceActivityRequest.Description activity) time.zero).

(** [GetTotalByStatus] *)
Definition GetTotalByStatus (status : InvoiceStatus) : Action S (float64 * Z) :=
  InvoiceRepository.GetTotalByStatus invoice status.

(** [GetRecentInvoices] *)
Definition GetRecentInvoices (senderID : uuid.UUID) (page limit : int32)
  : Action S (list Invoice.t) :=
  let offset := mul32 (sub32 page 1) limit in
  InvoiceRepository.GetRecentInvoices invoice senderID limit offset.

(** [GetRecentActivities] *)
Definition GetRecentActivities (userID : uuid.UUID) (page limit : int32)
  : Action S (list RecentActivity.t) :=
  let offset := mul32 (sub32 page 1) limit in
  InvoiceRepository.GetRecentActivities invoice userID limit offset.

(** [GetInvoiceActivities] *)
Definition GetInvoiceActivities (userID invoiceID : uuid.UUID)
  (page limit : int32) : Action S (list InvoiceActivity.t) :=
  let offset := mul32 (sub32 page 1) limit in
  InvoiceRepository.GetInvoiceActivities invoice userID invoiceID limit offset.

End invoiceServiceImpl.

(** user.go *)
Module userServiceImpl.
Section userServiceImpl.
Context {L : Libraries} {B : Bcrypt} {S : Type} (User : UserRepository.t S).

(** [CreateUser] *)
Definition CreateUser (data : CreateUserRequest.t) : Action S uuid.UUID :=
hashedPassword <- helpers.HashPassword (CreateUserRequest.Password data) ;;
userID <- uuid_New ;;
UserRepository.CreateUser User
  (User.mk userID (CreateUserRequest.Username data)
     (CreateUserRequest.Email data) hashedPassword
     (CreateUserRequest.FirstName data) (CreateUserRequest.LastName data)
     (CreateUserRequest.ProfilePictureURL data)
     (CreateUserRequest.PhoneNumber data) (CreateUserRequest.Address data)
     time.zero time.zero).

(** [AddPaymentMethod] *)
Definition AddPaymentMethod (data : AddPaymentMethodRequest.t)
: Action S uuid.UUID :=
userID <- or_fail (uuid_Parse (AddPaymentMethodRequest.UserID data))
            "invalid invoice id" ;;
paymentMethodID <- uuid_New ;;
UserRepository.AddPaymentMethod User
  (UserPaymentMethod.mk paymentMethodID userID
     (AddPaymentMethodRequest.AccountName data)
     (AddPaymentMethodRequest.AccountNumber data)
     (AddPaymentMethodRequest.BankName data)
     (AddPaymentMethodRequest.BankAddress data)
     (AddPaymentMethodRequest.SwiftCode data)
     false time.zero time.zero).

(** [AddCustomer] *)
Definition AddCustomer (data : AddCustomerRequest.t) : Action S uuid.UUID :=
customerID <- uuid_New ;;
UserRepository.AddCustomer User
  (Customer.mk customerID (AddCustomerRequest.Name data)
     (AddCustomerRequest.Email data) (AddCustomerRequest.PhoneNumber data)
     (AddCustomerRequest.Address data) time.zero time.zero).

End userServiceImpl.
End userServiceImpl.

End service.

(** ** Package [controller] *)

Module controller.
Import models repository.

Module gin.

(** What the handlers read of a [gin.Context]: the path parameters and
    the query string, each as key and value in order of appearance. *)
Record Context := mkContext {
  Params : list (string * string);
  QueryString : list (string * string) }.

Fixpoint lookup (key : string) (kvs : list (string * string)) : option string :=
  match kvs with
  | [] => None
  | (k, v) :: kvs' => if String.eqb k key then Some v else lookup key kvs'
  end.

(** [ctx.Param(key)]: the empty string when there is no such parameter. *)
Definition Param (ctx : Context) (key : string) : string :=
  match lookup key (Params ctx) with
  | Some v => v
  | None => ""
  end.

(** [ctx.Query(key)], with whether the key is there. *)
Definition GetQuery (ctx : Context) (key : string) : option string :=
  lookup key (QueryString ctx).

(** [ctx.DefaultQuery(key, defaultValue)] *)
Definition DefaultQuery (ctx : Context) (key defaultValue : string) : string :=
  match GetQuery ctx key with
  | Some v => v
  | None => defaultValue
  end.

Inductive Body :=
| H_error (message : string)
| Invoices (invoices : list Invoice.t)
| RecentActivities (activities : list RecentActivity.t)
| InvoiceActivities (activities : list InvoiceActivity.t).

(** [ctx.JSON(code, body)] *)
Record Response := JSON { Code : Z; Payload : Body }.

End gin.
Import gin.

Definition StatusOK : Z := 200.
Definition StatusBadRequest : Z := 400.
Definition StatusInternalServerError : Z := 500.

(** [getPaginationParams] *)
Definition getPaginationParams (ctx : gin.Context) : int32 * int32 :=
  let limitStr := DefaultQuery ctx "limit" "10" in
  let pageStr := DefaultQuery ctx "page" "1" in
  let limit := match strconv.ParseInt limitStr 32 with
               | Err _ => 10
               | Ok limit64 => wrap 32 limit64
               end in
  let page := match strconv.ParseInt pageStr 32 with
              | Err _ => 1
              | Ok page64 => wrap 32 page64
              end in
  (limit, page).

Section handlerImpl.
Context {L : Libraries} {S : Type} (invoice : InvoiceRepository.t S).

(** [GetRecentInvoices] *)
Definition GetRecentInvoices (ctx : gin.Context)
  : Entropy * S -> Response * (Entropy * S) :=
  fun w =>
    match uuid_Parse (Param ctx "senderID") with
    | None => (JSON StatusBadRequest (H_error "Invalid sender ID"), w)
    | Some senderID =>
        let '(limit, page) := getPaginationParams ctx in
        match service.GetRecentInvoices invoice senderID page limit w with
        | (Err err, w') => (JSON StatusInternalServerError (H_error err), w')
        | (Ok invoices, w') => (JSON StatusOK (Invoices invoices), w')
        end
    end.

(** [GetRecentActivities] *)
Definition GetRecentActivities (ctx : gin.Context)
  : Entropy * S -> Response * (Entropy * S) :=
  fun w =>
    match uuid_Parse (Param ctx "userID") with
    | None => (JSON StatusBadRequest (H_error "Invalid user ID"), w)
    | Some userID =>
        let '(limit, page) := getPaginationParams ctx in
        match service.GetRecentActivities invoice userID page limit w with
        | (Err err, w') => (JSON StatusInternalServerError (H_error err), w')
        | (Ok activities, w') => (JSON StatusOK (RecentActivities activities), w')
        end
    end.

(** [GetInvoiceActivities] *)
Definition GetInvoiceActivities (ctx : gin.Context)
  : Entropy * S -> Response * (Entropy * S) :=
  fun w =>
    match uuid_Parse (Param ctx "userID") with
    | None => (JSON StatusBadRequest (H_error "Invalid user ID"), w)
    | Some userID =>
        match uuid_Parse (Param ctx "invoiceID") with
        | None => (JSON StatusBadRequest (H_error "Invalid invoice ID"), w)
        | Some invoiceID =>
            let '(limit, page) := getPaginationParams ctx in
            match service.GetInvoiceActivities invoice userID invoiceID
                    page limit w with
            | (Err err, w') => (JSON StatusInternalServerError (H_error err), w')
            | (Ok activities, w') =>
                (JSON StatusOK (InvoiceActivities activities), w')
            end
        end
    end.

End handlerImpl.

End controller.

(** ** An implementation of [Libraries] to run the program on

    It reads an identifier in the canonical form
    [xxxxxxxx-xxxx-xxxx-xxxx-xxxxxxxxxxxx] and a date in the form
    [YYYY-MM-DD].  It serves the examples; the theorems do not depend on it. *)

Module reference.

Definition hex (c : ascii) : option N :=
  let n := N_of_ascii c in
  if (48 <=? n)%N && (n <=? 57)%N then Some (n - 48)%N
  else if (97 <=? n)%N && (n <=? 102)%N then Some (n - 87)%N
  else if (65 <=? n)%N && (n <=? 70)%N then Some (n - 55)%N
  else None.

Fixpoint parse_uuid (pos : nat) (s : string) (acc : N) : option N :=
  match s with
  | EmptyString => if Nat.eqb pos 36 then Some acc else None
  | String c s' =>
      if Nat.eqb pos 8 || Nat.eqb pos 13 || Nat.eqb pos 18 || Nat.eqb pos 23 then
        if Ascii.eqb c "-" then parse_uuid (Nat.succ pos) s' acc else None
      else
        match hex c with
        | Some v => parse_uuid (Nat.succ pos) s' (acc * 16 + v)%N
        | None => None
        end
  end.

Definition number (s : string) : option Z :=
  match strconv.ParseUint s 64 with
  | Ok n => Some n
  | Err _ => None
  end.

Definition leap (y : Z) : bool :=
  (y mod 4 =? 0) && (negb (y mod 100 =? 0) || (y mod 400 =? 0)).

Definition days_in (y m : Z) : Z :=
  if m =? 2 then (if leap y then 29 else 28)
  else if (m =? 4) || (m =? 6) || (m =? 9) || (m =? 11) then 30
  else 31.

(** Days from 1970-01-01 to the given date of the civil calendar. *)
Definition days_from_civil (y m d : Z) : Z :=
  let y' := if m <=? 2 then y - 1 else y in
  let era := y' / 400 in
  let yoe := y' - era * 400 in
  let doy := (153 * (m + (if 2 <? m then -3 else 9)) + 2) / 5 + d - 1 in
  let doe := yoe * 365 + yoe / 4 - yoe / 100 + doy in
  era * 146097 + doe - 719468.

Definition parse_date (value : string) : option time.Time :=
  if negb (Nat.eqb (String.length value) 10) then None
  else if negb (String.eqb (substring 4 1 value) "-"
                && String.eqb (substring 7 1 value) "-") then None
  else
    match number (substring 0 4 value), number (substring 5 2 value),
          number (substring 8 2 value) with
    | Some y, Some m, Some d =>
        if (1 <=? m) && (m <=? 12) && (1 <=? d) && (d <=? days_in y m)
        then Some (days_from_civil y m d * 86400)
        else None
    | _, _, _ => None
    end.

Definition libraries : Libraries :=
  {| uuid_Parse := fun s => parse_uuid 0 s 0%N;
     time_Parse := fun layout value =>
                     if String.eqb layout "2006-01-02" then parse_date value
                     else None |}.

End reference.

(** ** What the specification says, in its own words

    Definitions that follow the text of the specification, to be compared
    below with what the code computes. *)

Section Validation.
Import models repository.
Context {L : Libraries}.

Inductive ErrorKind := InvalidReference | InvalidStatus | InvalidDateFormat.

Definition parses {A} (v : option A) : bool :=
  match v with Some _ => true | None => false end.

(** The checks of invoice creation in the order the specification lists
    them: whether the check passes, the kind of error and its message. *)
Definition creation_checks (data : CreateInvoiceRequest.t)
  : list (bool * (ErrorKind * error)) :=
  let info := CreateInvoiceRequest.Invoice data in
  [ (parses (uuid_Parse (InvoiceInfo.SenderID info)),
     (InvalidReference, "invalid sender id"));
    (parses (uuid_Parse (CreateInvoiceRequest.CustomerID data)),
     (InvalidReference, "invalid customer id"));
    (existsb (String.eqb (InvoiceInfo.Status info))
       ["draft"; "pending"; "paid"; "overdue"],
     (InvalidStatus, ("invalid invoice status: " ++ InvoiceInfo.Status info)%string));
    (parses (time_Parse "2006-01-02" (InvoiceInfo.IssueDate info)),
     (InvalidDateFormat, "issue date has invalid date format"));
    (parses (time_Parse "2006-01-02" (InvoiceInfo.DueDate info)),
     (InvalidDateFormat, "due date has invalid date format"));
    (parses (uuid_Parse (CreateInvoiceRequest.PaymentMethodID data)),
     (InvalidReference, "invalid payment method id")) ].

Fixpoint first_failure {E} (checks : list (bool * E)) : option E :=
  match checks with
  | [] => None
  | (true, _) :: rest => first_failure rest
  | (false, e) :: _ => Some e
  end.

End Validation.

(** A numeric query parameter: an optional sign and at least one decimal
    digit, and the integer it denotes. *)
Fixpoint all_digits (s : string) : bool :=
  match s with
  | EmptyString => true
  | String c s' => strconv.is_digit c && all_digits s'
  end.

Fixpoint digits_value (s : string) (n : Z) : Z :=
  match s with
  | EmptyString => n
  | String c s' => digits_value s' (n * 10 + strconv.digit c)
  end.

Definition unsigned_numeric (s : string) : bool :=
  negb (String.eqb s "") && all_digits s.

Definition numeric (s : string) : bool :=
  match s with
  | EmptyString => false
  | String c rest =>
      if Ascii.eqb c "+" || Ascii.eqb c "-" then unsigned_numeric rest
      else unsigned_numeric s
  end.

Definition numeric_value (s : string) : Z :=
  match s with
  | EmptyString => 0
  | String c rest =>
      if Ascii.eqb c "-" then - digits_value rest 0
      else if Ascii.eqb c "+" then digits_value rest 0
      else digits_value s 0
  end.

(** The value a pagination parameter stands for: the default when it is
    absent, not numeric, or not a 32-bit integer. *)
Definition pagination_value (param : option string) (default : Z) : Z :=
  match param with
  | None => default
  | Some s =>
      if numeric s && in_int32 (numeric_value s) then numeric_value s
      else default
  end.

(** The sum of a list of amounts. *)
Definition total (amounts : list NUMERIC.t) : NUMERIC.t :=
  fold_right NUMERIC.add (NUMERIC.Num 0) amounts.

(** A [float64] that is a whole number of hundredths. *)
Definition whole_hundredths (v : float64) : bool :=
  match v with
  | float64.Finite c e => (-2 <=? e) || (c mod 10 ^ (- 2 - e) =? 0)
  | _ => false
  end.

(** An amount as a column [NUMERIC(precision, 2)] holds it agrees with the
    amount as submitted: it is the submitted amount rounded to hundredths,
    a tie away from zero, and has at most [precision] digits; read back, it
    equals the submitted amount exactly when that is a whole number of
    hundredths. *)
Definition stored (precision : Z) (submitted : float64) (column : NUMERIC.t)
  : Prop :=
  column = NUMERIC.round submitted
  /\ NUMERIC.overflows precision submitted = false
  /\ float64.eqb (NUMERIC.to_float64 column) submitted
     = whole_hundredths submitted.


(** The tables with some rows added to [invoice_items]. *)
Definition with_items (d : postgres.Database) (rows : list models.InvoiceItem.row)
  : postgres.Database :=
  postgres.mkDatabase (postgres.users d) (postgres.customers d)
    (postgres.invoices d) (postgres.invoice_items d ++ rows)
    (postgres.user_payment_methods d) (postgres.payment_information d)
    (postgres.invoice_activities d) (postgres.recent_activities d).

(** The INSERT statements of one creation, run one after the other on
    plain tables: the first that fails ends the run. *)
Fixpoint insert_items (now : time.Time) (invoiceID : uuid.UUID)
  (items : list models.InvoiceItem.t) (d : postgres.Database)
  : Result postgres.Database :=
  match items with
  | [] => Ok d
  | item :: rest =>
      match postgres.insert_invoice_item now invoiceID item d with
      | Ok d' => insert_items now invoiceID rest d'
      | Err e => Err e
      end
  end.

Definition creation_statements (now : time.Time)
  (invoice : models.Invoice.t) (items : list models.InvoiceItem.t)
  (customerID : uuid.UUID) (paymentInfo : models.PaymentInformation.t)
  (activityID : uuid.UUID) (d : postgres.Database) : Result postgres.Database :=
  let id := models.Invoice.InvoiceID invoice in
  let sender := models.Invoice.SenderID invoice in
  let title := repository.invoiceRepoImpl.creation_title in
  let description := repository.invoiceRepoImpl.creation_description invoice in
  match postgres.insert_invoice now invoice customerID d with
  | Err e => Err e
  | Ok d1 =>
  match insert_items now id items d1 with
  | Err e => Err e
  | Ok d2 =>
  match postgres.insert_payment_information now
          (models.PaymentInformation.PaymentInfoID paymentInfo) id
          (models.PaymentInformation.PaymentMethodID paymentInfo) d2 with
  | Err e => Err e
  | Ok d3 =>
  match postgres.insert_invoice_activity now activityID id sender
          title description d3 with
  | Err e => Err e
  | Ok d4 =>
      postgres.insert_recent_activity now activityID sender title description d4
  end end end end.

(** The tables after one invoice has been created in full: one invoice
    row, one row per item, one payment-information row, one invoice-activity
    row and one recent-activity row, all stamped [now]. *)
Definition with_invoice (d : postgres.Database) (now : time.Time)
  (invoice : models.Invoice.t) (items : list models.InvoiceItem.t)
  (customerID : uuid.UUID) (paymentInfo : models.PaymentInformation.t)
  (activityID : uuid.UUID) : postgres.Database :=
  let id := models.Invoice.InvoiceID invoice in
  let sender := models.Invoice.SenderID invoice in
  let title := repository.invoiceRepoImpl.creation_title in
  let description := repository.invoiceRepoImpl.creation_description invoice in
  postgres.mkDatabase
    (postgres.users d)
    (postgres.customers d)
    (postgres.invoices d ++ [postgres.invoice_row now invoice customerID])
    (postgres.invoice_items d ++ map (postgres.item_row now id) items)
    (postgres.user_payment_methods d)
    (postgres.payment_information d
       ++ [postgres.payment_information_row now
             (models.PaymentInformation.PaymentInfoID paymentInfo) id
             (models.PaymentInformation.PaymentMethodID paymentInfo)])
    (postgres.invoice_activities d
       ++ [postgres.invoice_activity_row now activityID id sender title description])
    (postgres.recent_activities d
       ++ [postgres.recent_activity_row now activityID sender title description]).

(** ** Sample data for the examples *)

Module sample.
Import models postgres.

Definition entropy : Entropy := mkEntropy (fun n => (N.of_nat n + 1000)%N) 0.

Definition returns : mocked.Returns :=
  mocked.mkReturns (Ok (float64.Finite 0 0, 0)) (Ok 77%N) (Err "not prepared")
    (Ok []) (Ok []) (Ok []).

Definition payment_request : AddPaymentMethodRequest.t :=
  AddPaymentMethodRequest.mk "invalid-uuid" "Acme Ltd" "0123456789"
    "First Bank" "1 Main Street" "FBNINGLA".

Definition sender : User.t :=
  User.mk 1%N "ada" "ada@example.com" "$2a$10$N9qo8uLOickgx2ZMRZoMye"
    "Ada" "Lovelace" "" "+44 20 7946 0000" "12 St James Square" 1690000000 1690000000.

Definition customer : Customer.t :=
  Customer.mk 2%N "Charles" "charles@example.com" "+44 20 7946 0001"
    "1 Dorset Street" 1690000000 1690000000.

Definition method : UserPaymentMethod.t :=
  UserPaymentMethod.mk 3%N 1%N "Ada Lovelace" "0123456789" "First Bank"
    "1 Main Street" "FBNINGLA" false 1690000000 1690000000.

Definition tables0 : Database :=
  mkDatabase [sender] [customer] [] [] [method] [] [] [].

Definition server (d : Database) (faults : list (option error)) : Server :=
  mkServer d NoTx faults 1700000000.

(** Total 1000, discount 10 percent, final amount 900; one item. *)
Definition request : CreateInvoiceRequest.t :=
  CreateInvoiceRequest.mk
    (InvoiceInfo.mk "00000000-0000-0000-0000-000000000001"
       "2023-05-01" "2023-05-31"
       (float64.Finite 1000 0) (float64.Finite 10 0) (float64.Finite 100 0)
       (float64.Finite 900 0)
       "pending" "USD" "Test invoice")
    "00000000-0000-0000-0000-000000000002"
    "00000000-0000-0000-0000-000000000003"
    [InvoiceItemDetails.mk "Item 1" "Description 1" 2
       (float64.Finite 500 0) (float64.Finite 1000 0)].


(** An invoice somebody inserted without any payment information. *)
Definition bare_invoice : Invoice.row :=
  Invoice.mk 9%N "1234567890" 1%N 2%N 1682899200 1685491200
    (NUMERIC.Num 100000) (NUMERIC.Num 1000) (NUMERIC.Num 10000)
    (NUMERIC.Num 90000) "paid" "USD" "Thanks" 1695000000 1695000000.

Definition tables_bare : Database :=
  mkDatabase [sender] [customer] [bare_invoice] [] [method] [] [] [].

End sample.

(** * Properties *)

Lemma prefix_refl : forall s, String.prefix s s = true.
Proof.
  induction s as [|c s IH]; simpl; [reflexivity|].
  destruct (ascii_dec c c); [exact IH | congruence].
Qed.

Lemma Contains_self : forall s, strings.Contains s s = true.
Proof.
  intros s. destruct s; simpl; [reflexivity|].
  destruct (ascii_dec a a); [|congruence].
  now rewrite prefix_refl.
Qed.

Lemma Contains_app_l : forall pre s sub,
  strings.Contains s sub = true -> strings.Contains (pre ++ s)%string sub = true.
Proof.
  induction pre as [|c pre IH]; intros s sub H; simpl; [exact H|].
  destruct sub as [|d sub]; [reflexivity|].
  destruct (ascii_dec d c); [|now apply IH].
  destruct (String.prefix sub (pre ++ s)%string); [reflexivity | now apply IH].
Qed.

(** C5. Status validation returns no error exactly for "draft", "pending",
    "paid" and "overdue", compared byte for byte; every other string,
    "PAID" and " paid " among them, is rejected with a message that contains
    the rejected string itself. *)
Theorem ValidateInvoiceStatus_spec : forall s : string,
  (helpers.ValidateInvoiceStatus s = None
   <-> In s ["draft"; "pending"; "paid"; "overdue"])
  /\ (forall msg, helpers.ValidateInvoiceStatus s = Some msg ->
        msg = ("invalid invoice status: " ++ s)%string
        /\ strings.Contains msg s = true)
  /\ helpers.ValidateInvoiceStatus "PAID" = Some "invalid invoice status: PAID"
  /\ helpers.ValidateInvoiceStatus " paid " = Some "invalid invoice status:  paid ".
Proof.
  intros s. unfold helpers.ValidateInvoiceStatus.
  unfold models.InvoiceStatusPaid, models.InvoiceStatusDraft,
    models.InvoiceStatusOverDue, models.InvoiceStatusPending.
  repeat split.
  - destruct (String.eqb_spec s "paid"); [subst; simpl; auto|].
    destruct (String.eqb_spec s "draft"); [subst; simpl; auto|].
    destruct (String.eqb_spec s "overdue"); [subst; simpl; auto|].
    destruct (String.eqb_spec s "pending"); [subst; simpl; auto|].
    simpl. discriminate.
  - intros [H|[H|[H|[H|[]]]]]; subst; reflexivity.
  - destruct (_ && _); congruence.
  - destruct (_ && _); [|discriminate].
    injection H as <-. apply (Contains_app_l "invalid invoice status: ").
    apply Contains_self.
Qed.


Lemma ValidateInvoiceStatus_cases : forall s,
  helpers.ValidateInvoiceStatus s =
  if existsb (String.eqb s) ["draft"; "pending"; "paid"; "overdue"]
  then None else Some ("invalid invoice status: " ++ s)%string.
Proof.
  intros s. unfold helpers.ValidateInvoiceStatus, models.InvoiceStatusPaid,
    models.InvoiceStatusDraft, models.InvoiceStatusOverDue,
    models.InvoiceStatusPending. simpl.
  destruct (String.eqb s "paid"), (String.eqb s "draft"),
    (String.eqb s "overdue"), (String.eqb s "pending"); reflexivity.
Qed.

Lemma collect_store : forall {S A B} (f : A -> Action S B) (xs : list A) e s,
  (forall x e s, exists y e', f x (e, s) = (Ok y, (e', s))) ->
  exists ys e', collect xs f (e, s) = (Ok ys, (e', s)).
Proof.
  intros S A B f xs. induction xs as [|x xs IH]; intros e s Hf; simpl.
  - exists [], e. reflexivity.
  - unfold bind. destruct (Hf x e s) as (y & e1 & ->).
    destruct (IH e1 s Hf) as (ys & e2 & ->).
    exists (y :: ys), e2. reflexivity.
Qed.

(** C2. Invoice creation validates before it writes.  The checks are made
    in the order sender identifier, customer identifier, status, issue date,
    due date, payment-method identifier; the first that fails gives the
    error returned, and then the repository is not called: whatever the
    repository, its store is left as it was.  When every check passes, the
    request ends in one call of the repository's CreateInvoice. *)
Theorem CreateInvoice_validation_order :
  forall (L : Libraries) (S : Type)
         (repo : repository.InvoiceRepository.t S)
         (data : models.CreateInvoiceRequest.t) (e : Entropy) (s : S),
    match first_failure (creation_checks data) with
    | Some (_, msg) =>
        exists e', service.CreateInvoice repo data (e, s) = (Err msg, (e', s))
    | None =>
        exists invoice items customerID paymentInfo e',
          service.CreateInvoice repo data (e, s)
          = repository.InvoiceRepository.CreateInvoice repo
              invoice items customerID paymentInfo (e', s)
    end.
Proof.
  intros L S repo data [draws0 c0] s.
  destruct data as [[sender issue due ta dp da fa status cur notes] cust pm its].
  unfold creation_checks, service.CreateInvoice, bind, uuid_New,
    service.or_fail, service.check, service.layout. simpl.
  destruct (uuid_Parse sender) as [sid|]; simpl; [|eexists; reflexivity].
  destruct (uuid_Parse cust) as [cid|]; simpl; [|eexists; reflexivity].
  rewrite ValidateInvoiceStatus_cases. simpl.
  destruct (_ || _); simpl; [|eexists; reflexivity].
  destruct (time_Parse "2006-01-02" issue) as [t1|]; simpl; [|eexists; reflexivity].
  destruct (time_Parse "2006-01-02" due) as [t2|]; simpl; [|eexists; reflexivity].
  match goal with
  | |- context [collect its ?f ?w] =>
      destruct (collect_store f its (fst w) s) as (ys & e2 & Hc)
  end.
  { intros x [d c] s'. do 2 eexists. reflexivity. }
  simpl in Hc. rewrite Hc. destruct e2 as [d2 c2].
  destruct (uuid_Parse pm) as [pid|]; simpl.
  - do 5 eexists. reflexivity.
  - eexists. reflexivity.
Qed.

(** C10. Adding a payment method for a user identifier that does not parse
    fails with the message "invalid invoice id", without drawing an
    identifier and without calling the repository: whatever the repository,
    the state is left as it was, and the recording repository of the unit
    tests has recorded nothing. *)
Theorem AddPaymentMethod_invalid_user_id :
  forall (L : Libraries) (data : models.AddPaymentMethodRequest.t),
    uuid_Parse (models.AddPaymentMethodRequest.UserID data) = None ->
    (forall (S : Type) (User : repository.UserRepository.t S) (w : Entropy * S),
        service.userServiceImpl.AddPaymentMethod User data w
        = (Err "invalid invoice id", w))
    /\ (forall (r : mocked.Returns) (e : Entropy) (calls : list mocked.Call),
          service.userServiceImpl.AddPaymentMethod
            (mocked.MockUserRepository r) data (e, calls)
          = (Err "invalid invoice id", (e, calls))).
Proof.
  intros L data Hparse.
  assert (G : forall (S : Type) (User : repository.UserRepository.t S) w,
             service.userServiceImpl.AddPaymentMethod User data w
             = (Err "invalid invoice id", w)).
  { intros S User w. unfold service.userServiceImpl.AddPaymentMethod, bind.
    rewrite Hparse. reflexivity. }
  split; [exact G | intros; apply G].
Qed.

Lemma AddPaymentMethod_invalid_user_id_witness :
  service.userServiceImpl.AddPaymentMethod (L := reference.libraries)
    (mocked.MockUserRepository sample.returns) sample.payment_request
    (sample.entropy, [])
  = (Err "invalid invoice id", (sample.entropy, [])).
Proof.
  apply (proj2 (AddPaymentMethod_invalid_user_id reference.libraries
                  sample.payment_request eq_refl)).
Defined.

(** ** Pagination *)

Lemma wrap32_small : forall z, in_int32 z = true -> wrap 32 z = z.
Proof.
  intros z H. unfold in_int32 in H. apply andb_prop in H as [H1 H2].
  apply Z.leb_le in H1. apply Z.ltb_lt in H2. unfold wrap.
  change (2 ^ (32 - 1)) with 2147483648 in *.
  change (2 ^ 32) with 4294967296.
  change (2 ^ 31) with 2147483648 in *.
  rewrite Z.mod_small; lia.
Qed.

Lemma offset_exact : forall p l,
  in_int32 p = true -> 1 <= p -> in_int32 ((p - 1) * l) = true ->
  mul32 (sub32 p 1) l = (p - 1) * l.
Proof.
  intros p l Hp H1 Hpl. unfold mul32, sub32.
  rewrite (wrap32_small (p - 1)).
  - now apply wrap32_small.
  - unfold in_int32 in *. apply andb_prop in Hp as [Ha Hb].
    apply Z.leb_le in Ha. apply Z.ltb_lt in Hb.
    change (2 ^ 31) with 2147483648 in *.
    apply andb_true_intro. split; [apply Z.leb_le | apply Z.ltb_lt]; lia.
Qed.

Lemma list_operations_calls :
  forall (r : mocked.Returns) (id invoiceID : uuid.UUID) (p l : int32)
         (e : Entropy) (calls : list mocked.Call),
    let repo := mocked.MockInvoiceRepository r in
    let offset := mul32 (sub32 p 1) l in
    snd (snd (service.GetRecentInvoices repo id p l (e, calls)))
    = calls ++ [mocked.GetRecentInvoices id l offset]
    /\ snd (snd (service.GetRecentActivities repo id p l (e, calls)))
       = calls ++ [mocked.GetRecentActivities id l offset]
    /\ snd (snd (service.GetInvoiceActivities repo id invoiceID p l (e, calls)))
       = calls ++ [mocked.GetInvoiceActivities id invoiceID l offset].
Proof.
  intros. repeat split; reflexivity.
Qed.

(** C4, as stated, fails: for page 3 and limit 2^30 the product
    (page - 1) * limit is 2^31, which no int32 holds, and the repository is
    handed the offset -2^31. *)
Lemma list_offset_overflow :
  1 <= 3
  /\ in_int32 3 = true /\ in_int32 1073741824 = true
  /\ snd (snd (service.GetRecentInvoices
                 (mocked.MockInvoiceRepository sample.returns)
                 5%N 3 1073741824 (sample.entropy, [])))
     = [mocked.GetRecentInvoices 5%N 1073741824 (-2147483648)]
  /\ (3 - 1) * 1073741824 = 2147483648
  /\ -2147483648 <> (3 - 1) * 1073741824.
Proof.
  repeat split; try reflexivity; try discriminate.
Qed.

(** C4, amended. For every identifier, every page p >= 1 and every limit l
    such that (p - 1) * l is a 32-bit integer, each of the three paginated
    list operations calls the repository once, with the limit unchanged and
    the offset (p - 1) * l.  Page 1 gives offset 0 for every limit, and
    page 2 with limit 10 gives offset 10. *)
Theorem list_operations_offset :
  forall (r : mocked.Returns) (id invoiceID : uuid.UUID) (p l : int32)
         (e : Entropy) (calls : list mocked.Call),
    in_int32 p = true -> in_int32 l = true -> 1 <= p ->
    in_int32 ((p - 1) * l) = true ->
    let repo := mocked.MockInvoiceRepository r in
    snd (snd (service.GetRecentInvoices repo id p l (e, calls)))
    = calls ++ [mocked.GetRecentInvoices id l ((p - 1) * l)]
    /\ snd (snd (service.GetRecentActivities repo id p l (e, calls)))
       = calls ++ [mocked.GetRecentActivities id l ((p - 1) * l)]
    /\ snd (snd (service.GetInvoiceActivities repo id invoiceID p l (e, calls)))
       = calls ++ [mocked.GetInvoiceActivities id invoiceID l ((p - 1) * l)]
    /\ snd (snd (service.GetRecentInvoices repo id 1 l (e, calls)))
       = calls ++ [mocked.GetRecentInvoices id l 0]
    /\ snd (snd (service.GetRecentInvoices repo id 2 10 (e, calls)))
       = calls ++ [mocked.GetRecentInvoices id 10 10].
Proof.
  intros r id invoiceID p l e calls Hp Hl H1 Hpl repo.
  destruct (list_operations_calls r id invoiceID p l e calls) as (Ha & Hb & Hc).
  cbv zeta in Ha, Hb, Hc. rewrite (offset_exact p l Hp H1 Hpl) in Ha, Hb, Hc.
  repeat split; try assumption; reflexivity.
Qed.

Lemma list_operations_offset_witness :
  snd (snd (service.GetRecentInvoices
              (mocked.MockInvoiceRepository sample.returns)
              5%N 10 10 (sample.entropy, [])))
  = [mocked.GetRecentInvoices 5%N 10 ((10 - 1) * 10)].
Proof.
  apply (proj1 (list_operations_offset sample.returns 5%N 6%N 10 10
                  sample.entropy [] eq_refl eq_refl
                  ltac:(discriminate) eq_refl)).
Defined.

Lemma is_digit_bounds : forall c,
  strconv.is_digit c = true -> 0 <= strconv.digit c <= 9.
Proof.
  intros c H. unfold strconv.is_digit in H. unfold strconv.digit.
  apply andb_prop in H as [H1 H2].
  apply N.leb_le in H1. apply N.leb_le in H2. lia.
Qed.

Lemma digits_value_ge : forall s n,
  all_digits s = true -> 0 <= n -> n <= digits_value s n.
Proof.
  induction s as [|c s IH]; intros n Hs Hn; simpl in *; [lia|].
  apply andb_prop in Hs as [Hc Hs]. apply is_digit_bounds in Hc.
  specialize (IH (n * 10 + strconv.digit c) Hs). lia.
Qed.

Lemma ParseUint_loop_spec : forall s n,
  0 <= n <= 4294967295 ->
  (all_digits s = true -> digits_value s n <= 4294967295 ->
   strconv.ParseUint_loop 4294967295 s n = Ok (digits_value s n))
  /\ (all_digits s = false \/ 4294967295 < digits_value s n ->
      exists e, strconv.ParseUint_loop 4294967295 s n = Err e).
Proof.
  induction s as [|c s IH]; intros n Hn;
    cbn [strconv.ParseUint_loop all_digits digits_value].
  - split; [reflexivity|]. intros [H|H]; [discriminate | lia].
  - destruct (strconv.is_digit c) eqn:Hc; cbn [andb].
    2:{ split; [discriminate|]. intros _. eexists; reflexivity. }
    pose proof (is_digit_bounds c Hc) as Hd.
    change ((2 ^ 64 - 1) / 10 + 1) with 1844674407370955162.
    change (2 ^ 64) with 18446744073709551616.
    destruct (1844674407370955162 <=? n) eqn:Hcut;
      [apply Z.leb_le in Hcut; lia|].
    destruct (18446744073709551616 <=? n * 10 + strconv.digit c) eqn:H64;
      [apply Z.leb_le in H64; lia|].
    cbn [orb].
    destruct (4294967295 <? n * 10 + strconv.digit c) eqn:Hmax.
    + apply Z.ltb_lt in Hmax. split.
      * intros Hs Hv.
        pose proof (digits_value_ge s (n * 10 + strconv.digit c) Hs). lia.
      * intros _. eexists; reflexivity.
    + apply Z.ltb_ge in Hmax.
      apply (IH (n * 10 + strconv.digit c)). lia.
Qed.

Lemma digits_value_nonneg : forall s n,
  all_digits s = true -> 0 <= n -> 0 <= digits_value s n.
Proof.
  intros s n Hs Hn. pose proof (digits_value_ge s n Hs Hn). lia.
Qed.

Lemma ParseUint_spec : forall s,
  (unsigned_numeric s = true -> digits_value s 0 <= 4294967295 ->
   strconv.ParseUint s 32 = Ok (digits_value s 0))
  /\ (unsigned_numeric s = false \/ 4294967295 < digits_value s 0 ->
      exists e, strconv.ParseUint s 32 = Err e).
Proof.
  intros s. unfold strconv.ParseUint, unsigned_numeric.
  change (2 ^ 32 - 1) with 4294967295.
  destruct s as [|c s].
  - split; [discriminate|]. intros _. eexists; reflexivity.
  - change (negb (String.eqb (String c s) "")) with true.
    rewrite andb_true_l.
    apply (ParseUint_loop_spec (String c s) 0). lia.
Qed.

Lemma ParseInt_unsigned : forall s neg,
  match strconv.ParseUint s 32 with
  | Err e => if String.eqb e strconv.ErrRange then Err strconv.ErrRange else Err e
  | Ok un =>
      if negb neg && (2 ^ (32 - 1) <=? un) then Err strconv.ErrRange
      else if neg && (2 ^ (32 - 1) <? un) then Err strconv.ErrRange
      else Ok (if neg then - un else un)
  end
  = (let v := if neg then - digits_value s 0 else digits_value s 0 in
     if unsigned_numeric s && in_int32 v then Ok v
     else match strconv.ParseUint s 32 with
          | Err e => if String.eqb e strconv.ErrRange then Err strconv.ErrRange else Err e
          | Ok _ => Err strconv.ErrRange
          end).
Proof.
  intros s neg. cbv zeta.
  destruct (ParseUint_spec s) as [Hok Herr].
  unfold in_int32.
  change (2 ^ (32 - 1)) with 2147483648. change (2 ^ 31) with 2147483648.
  change (- (2147483648)) with (-2147483648).
  destruct (unsigned_numeric s) eqn:Hnum; cbn [andb].
  2:{ destruct Herr as [e ->]; [now left | reflexivity]. }
  assert (Hpos : 0 <= digits_value s 0).
  { unfold unsigned_numeric in Hnum. apply andb_prop in Hnum as [_ Hd].
    apply digits_value_nonneg; [exact Hd | lia]. }
  destruct (Z_le_gt_dec (digits_value s 0) 4294967295) as [Hle|Hgt].
  - rewrite (Hok eq_refl Hle).
    destruct neg; cbn [negb andb].
    + destruct (Z.ltb_spec 2147483648 (digits_value s 0));
        destruct (Z.leb_spec (-2147483648) (- digits_value s 0));
        destruct (Z.ltb_spec (- digits_value s 0) 2147483648);
        cbn [andb]; try reflexivity; lia.
    + destruct (Z.leb_spec 2147483648 (digits_value s 0));
        destruct (Z.leb_spec (-2147483648) (digits_value s 0));
        destruct (Z.ltb_spec (digits_value s 0) 2147483648);
        cbn [andb]; try reflexivity; lia.
  - destruct Herr as [e ->]; [right; lia|].
    destruct neg.
    + destruct (Z.leb_spec (-2147483648) (- digits_value s 0));
        cbn [andb]; [lia | reflexivity].
    + destruct (Z.leb_spec (-2147483648) (digits_value s 0));
        destruct (Z.ltb_spec (digits_value s 0) 2147483648);
        cbn [andb]; try reflexivity; lia.
Qed.

Lemma ParseInt_spec : forall s,
  if numeric s && in_int32 (numeric_value s)
  then strconv.ParseInt s 32 = Ok (numeric_value s)
  else exists e, strconv.ParseInt s 32 = Err e.
Proof.
  intros s. destruct s as [|c rest]; [eexists; reflexivity|].
  unfold strconv.ParseInt, numeric, numeric_value.
  cbv zeta.
  destruct (Ascii.eqb c "-") eqn:Hm.
  - rewrite orb_true_r. rewrite (ParseInt_unsigned rest true). cbv zeta.
    destruct (unsigned_numeric rest && in_int32 (- digits_value rest 0));
      [reflexivity|].
    destruct (strconv.ParseUint rest 32) as [un|e];
      [|destruct (String.eqb e strconv.ErrRange)]; eexists; reflexivity.
  - rewrite orb_false_r.
    destruct (Ascii.eqb c "+") eqn:Hp.
    + rewrite (ParseInt_unsigned rest false). cbv zeta.
      destruct (unsigned_numeric rest && in_int32 (digits_value rest 0));
        [reflexivity|].
      destruct (strconv.ParseUint rest 32) as [un|e];
        [|destruct (String.eqb e strconv.ErrRange)]; eexists; reflexivity.
    + rewrite (ParseInt_unsigned (String c rest) false). cbv zeta.
      destruct (unsigned_numeric (String c rest)
                && in_int32 (digits_value (String c rest) 0));
        [reflexivity|].
      destruct (strconv.ParseUint (String c rest) 32) as [un|e];
        [|destruct (String.eqb e strconv.ErrRange)]; eexists; reflexivity.
Qed.

Lemma parameter_value : forall (ctx : controller.gin.Context) key def dv,
  strconv.ParseInt def 32 = Ok dv -> in_int32 dv = true ->
  match strconv.ParseInt (controller.gin.DefaultQuery ctx key def) 32 with
  | Err _ => dv
  | Ok v => wrap 32 v
  end
  = pagination_value (controller.gin.GetQuery ctx key) dv.
Proof.
  intros ctx key def dv Hdef Hdv.
  unfold controller.gin.DefaultQuery, pagination_value.
  destruct (controller.gin.GetQuery ctx key) as [s|].
  - pose proof (ParseInt_spec s) as Hs.
    destruct (numeric s && in_int32 (numeric_value s)) eqn:Hc.
    + rewrite Hs. apply andb_prop in Hc as [_ Hr]. now apply wrap32_small.
    + destruct Hs as [e ->]. reflexivity.
  - rewrite Hdef. now apply wrap32_small.
Qed.

Lemma getPaginationParams_spec : forall ctx : controller.gin.Context,
  controller.getPaginationParams ctx
  = (pagination_value (controller.gin.GetQuery ctx "limit") 10,
     pagination_value (controller.gin.GetQuery ctx "page") 1).
Proof.
  intros ctx. unfold controller.getPaginationParams. cbv zeta.
  rewrite (parameter_value ctx "limit" "10" 10 eq_refl eq_refl).
  rewrite (parameter_value ctx "page" "1" 1 eq_refl eq_refl).
  reflexivity.
Qed.

(** C9, as stated, fails: the limit 2147483648 is numeric, and the limit
    used is the default 10. *)
Lemma pagination_limit_out_of_range :
  numeric "2147483648" = true
  /\ numeric_value "2147483648" = 2147483648
  /\ controller.getPaginationParams
       (controller.gin.mkContext [] [("limit", "2147483648")])
     = (10, 1).
Proof.
  repeat split; reflexivity.
Qed.

(** C9, amended. For every HTTP list request, a limit or page parameter
    that is absent, not numeric, or numeric but outside the signed 32-bit
    range is replaced by its default, limit 10 and page 1; every numeric
    value of that range, zero and negative values included, is used as it
    is.  The service is called with these two values, and the repository
    with the limit unchanged and the offset (page - 1) * limit computed in
    32 bits; there is no clamping.  A request whose path identifier does
    not parse reaches neither. *)
Theorem pagination_parameters :
  forall (L : Libraries) (r : mocked.Returns) (ctx : controller.gin.Context)
         (e : Entropy) (calls : list mocked.Call),
    let limit := pagination_value (controller.gin.GetQuery ctx "limit") 10 in
    let page := pagination_value (controller.gin.GetQuery ctx "page") 1 in
    let repo := mocked.MockInvoiceRepository r in
    controller.getPaginationParams ctx = (limit, page)
    /\ snd (snd (controller.GetRecentInvoices repo ctx (e, calls)))
       = match uuid_Parse (controller.gin.Param ctx "senderID") with
         | Some senderID =>
             calls ++ [mocked.GetRecentInvoices senderID limit
                         (mul32 (sub32 page 1) limit)]
         | None => calls
         end
    /\ snd (snd (controller.GetRecentActivities repo ctx (e, calls)))
       = match uuid_Parse (controller.gin.Param ctx "userID") with
         | Some userID =>
             calls ++ [mocked.GetRecentActivities userID limit
                         (mul32 (sub32 page 1) limit)]
         | None => calls
         end
    /\ snd (snd (controller.GetInvoiceActivities repo ctx (e, calls)))
       = match uuid_Parse (controller.gin.Param ctx "userID"),
               uuid_Parse (controller.gin.Param ctx "invoiceID") with
         | Some userID, Some invoiceID =>
             calls ++ [mocked.GetInvoiceActivities userID invoiceID limit
                         (mul32 (sub32 page 1) limit)]
         | _, _ => calls
         end.
Proof.
  intros L r ctx e calls limit page repo.
  pose proof (getPaginationParams_spec ctx) as Hp. fold limit page in Hp.
  split; [exact Hp|].
  unfold controller.GetRecentInvoices, controller.GetRecentActivities,
    controller.GetInvoiceActivities.
  rewrite Hp.
  repeat split.
  - destruct (uuid_Parse (controller.gin.Param ctx "senderID")); [|reflexivity].
    unfold service.GetRecentInvoices. simpl. destruct (mocked.invoices r); reflexivity.
  - destruct (uuid_Parse (controller.gin.Param ctx "userID")); [|reflexivity].
    unfold service.GetRecentActivities. simpl. destruct (mocked.recent r); reflexivity.
  - destruct (uuid_Parse (controller.gin.Param ctx "userID")); [|reflexivity].
    destruct (uuid_Parse (controller.gin.Param ctx "invoiceID")); [|reflexivity].
    unfold service.GetInvoiceActivities. simpl.
    destruct (mocked.activities r); reflexivity.
Qed.


(** ** Totals by status *)









Lemma filter_none : forall {A} (f : A -> bool) l,
  Forall (fun x => f x = false) l -> filter f l = [].
Proof.
  intros A f l H. induction H as [|x l Hx _ IH]; simpl; [reflexivity|].
  now rewrite Hx.
Qed.



(** ** The creation transaction *)

Section Transaction.
Import models postgres repository.

Lemma hd_nth : forall {A} (d : A) l, hd d l = nth 0 l d.
Proof. intros A d [|x l]; reflexivity. Qed.

Lemma nth_tl : forall {A} (d : A) k l, nth k (tl l) d = nth (Datatypes.S k) l d.
Proof. intros A d k [|x l]; [destruct k|]; reflexivity. Qed.

Lemma hd_skipn : forall {A} (d : A) n l, hd d (skipn n l) = nth n l d.
Proof.
  intros A d n. induction n as [|n IH]; intros [|x l]; simpl; auto.
Qed.

Lemma tl_skipn : forall {A} n (l : list A), tl (skipn n l) = skipn (Datatypes.S n) l.
Proof.
  intros A n. induction n as [|n IH]; intros [|x l]; simpl; auto.
Qed.

Lemma skipn_tl : forall {A} n (l : list A), skipn n (tl l) = skipn (Datatypes.S n) l.
Proof. intros A n [|x l]; [now rewrite !skipn_nil | reflexivity]. Qed.

Lemma Begin_run : forall e T st fs t,
  Begin (e, mkServer T st fs t)
  = match hd None fs with
    | Some err => (Err err, (e, mkServer T st (tl fs) t))
    | None => (Ok tt, (e, mkServer T (Open T) (tl fs) t))
    end.
Proof. reflexivity. Qed.

Lemma tx_Exec_run : forall stmt e T w fs t,
  tx_Exec stmt (e, mkServer T (Open w) fs t)
  = match hd None fs with
    | Some err => (Err err, (e, mkServer T Aborted (tl fs) t))
    | None =>
        match stmt t w with
        | Err err => (Err err, (e, mkServer T Aborted (tl fs) t))
        | Ok w' => (Ok tt, (e, mkServer T (Open w') (tl fs) t))
        end
    end.
Proof. reflexivity. Qed.

Lemma Commit_run : forall e T w fs t,
  Commit (e, mkServer T (Open w) fs t)
  = match hd None fs with
    | Some err => (Err err, (e, mkServer T NoTx (tl fs) t))
    | None => (Ok tt, (e, mkServer w NoTx (tl fs) t))
    end.
Proof. reflexivity. Qed.

Lemma with_items_nil : forall w, with_items w [] = w.
Proof. intros []. unfold with_items. simpl. now rewrite app_nil_r. Qed.

Lemma with_items_cons : forall w r rows,
  with_items (with_items w [r]) rows = with_items w (r :: rows).
Proof.
  intros w r rows. unfold with_items. simpl. now rewrite <- app_assoc.
Qed.

(** An INSERT that returned [Ok] has passed each of its checks, and its
    result is the row appended. *)
Ltac accepted :=
  repeat match goal with
         | |- context [if ?b then Err _ else _] => destruct b; [discriminate|]
         end;
  let H := fresh in intros H; now injection H as <-.

Lemma insert_invoice_item_Ok : forall t id it w w',
  insert_invoice_item t id it w = Ok w' -> w' = with_items w [item_row t id it].
Proof.
  intros t id it w w'. unfold insert_invoice_item.
  accepted.
Qed.

(** The loop over the items, run inside the open transaction. *)
Lemma items_loop : forall items id e T w fs t,
  match for_each items
          (fun item => tx_Exec (fun now => insert_invoice_item now id item))
          (e, mkServer T (Open w) fs t) with
  | (Ok _, st) =>
      st = (e, mkServer T (Open (with_items w (map (item_row t id) items)))
                 (skipn (List.length items) fs) t)
      /\ insert_items t id items w
         = Ok (with_items w (map (item_row t id) items))
      /\ (forall k, (k < List.length items)%nat -> nth k fs None = None)
  | (Err _, (_, srv')) => tables srv' = T /\ tx srv' = Aborted
  end.
Proof.
  induction items as [|it items IH]; intros id e T w fs t.
  - simpl. rewrite with_items_nil. repeat split. intros k Hk. inversion Hk.
  - cbn [for_each insert_items]. unfold bind at 1. rewrite tx_Exec_run.
    destruct (hd None fs) as [err|] eqn:F; [split; reflexivity|].
    destruct (insert_invoice_item t id it w) as [w1|err] eqn:E;
      [|split; reflexivity].
    apply insert_invoice_item_Ok in E. subst w1.
    specialize (IH id e T (with_items w [item_row t id it]) (tl fs) t).
    destruct (for_each items _ _) as [[u|err] [e1 srv1]]; [|exact IH].
    destruct IH as (-> & Hi & Hk). repeat split.
    + cbn [map List.length]. now rewrite with_items_cons, skipn_tl.
    + rewrite Hi. cbn [map]. now rewrite with_items_cons.
    + intros [|k] Hlt; [now rewrite <- hd_nth|].
      rewrite <- nth_tl. apply Hk. simpl in Hlt. lia.
Qed.

Lemma insert_invoice_Ok : forall t i c w w',
  insert_invoice t i c w = Ok w' ->
  w' = mkDatabase (users w) (customers w) (invoices w ++ [invoice_row t i c])
         (invoice_items w) (user_payment_methods w) (payment_information w)
         (invoice_activities w) (recent_activities w).
Proof.
  intros t i c w w'. unfold insert_invoice.
  accepted.
Qed.

Lemma insert_payment_information_Ok : forall t a b c w w',
  insert_payment_information t a b c w = Ok w' ->
  w' = mkDatabase (users w) (customers w) (invoices w) (invoice_items w)
         (user_payment_methods w)
         (payment_information w ++ [payment_information_row t a b c])
         (invoice_activities w) (recent_activities w).
Proof.
  intros t a b c w w'. unfold insert_payment_information.
  accepted.
Qed.

Lemma insert_invoice_activity_Ok : forall t a b c ti de w w',
  insert_invoice_activity t a b c ti de w = Ok w' ->
  w' = mkDatabase (users w) (customers w) (invoices w) (invoice_items w)
         (user_payment_methods w) (payment_information w)
         (invoice_activities w ++ [invoice_activity_row t a b c ti de])
         (recent_activities w).
Proof.
  intros t a b c ti de w w'. unfold insert_invoice_activity.
  accepted.
Qed.

Lemma insert_recent_activity_Ok : forall t a b ti de w w',
  insert_recent_activity t a b ti de w = Ok w' ->
  w' = mkDatabase (users w) (customers w) (invoices w) (invoice_items w)
         (user_payment_methods w) (payment_information w)
         (invoice_activities w)
         (recent_activities w ++ [recent_activity_row t a b ti de]).
Proof.
  intros t a b ti de w w'. unfold insert_recent_activity.
  accepted.
Qed.

(** What [CreateInvoice] returns and leaves behind, in full. *)
Lemma CreateInvoice_outcome :
  forall invoice items customerID paymentInfo e srv,
    match invoiceRepoImpl.CreateInvoice invoice items customerID paymentInfo
            (e, srv) with
    | (Ok id, (_, srv')) =>
        id = Invoice.InvoiceID invoice
        /\ tables srv'
           = with_invoice (tables srv) (now srv) invoice items customerID
               paymentInfo (draws e (cursor e))
        /\ creation_statements (now srv) invoice items customerID paymentInfo
             (draws e (cursor e)) (tables srv)
           = Ok (tables srv')
        /\ tx srv' = NoTx
        /\ (forall k, (k < 6 + List.length items)%nat ->
                      nth k (faults srv) None = None)
    | (Err _, (_, srv')) => tables srv' = tables srv
    end.
Proof.
  intros invoice items customerID paymentInfo [dr cu] [T st fs t].
  unfold invoiceRepoImpl.CreateInvoice.
  unfold bind at 1. rewrite Begin_run.
  destruct (hd None fs) as [err|] eqn:F0; [reflexivity|].
  unfold defer.
  unfold bind at 1. rewrite tx_Exec_run.
  destruct (hd None (tl fs)) as [err|] eqn:F1; [reflexivity|].
  destruct (insert_invoice t invoice customerID T) as [w1|err] eqn:E1;
    [|reflexivity].
  pose proof (insert_invoice_Ok _ _ _ _ _ E1) as D1.
  unfold bind at 1.
  pose proof (items_loop items (Invoice.InvoiceID invoice)
                (mkEntropy dr cu) T w1 (tl (tl fs)) t) as HL.
  destruct (for_each items _ _) as [[u|err] [e1 srv1]].
  2:{ destruct HL as [HT _]. exact HT. }
  destruct HL as (HL & EI & Hitems). injection HL as -> ->.
  unfold bind at 1. rewrite tx_Exec_run.
  destruct (hd None (skipn (List.length items) (tl (tl fs)))) as [err|] eqn:F2;
    [reflexivity|].
  destruct (insert_payment_information _ _ _ _ _) as [w2|err] eqn:E2;
    [|reflexivity].
  pose proof (insert_payment_information_Ok _ _ _ _ _ _ E2) as D2.
  unfold bind at 1. cbn [uuid_New draws cursor].
  unfold bind at 1. rewrite tx_Exec_run.
  destruct (hd None (tl (skipn (List.length items) (tl (tl fs)))))
    as [err|] eqn:F3; [reflexivity|].
  destruct (insert_invoice_activity _ _ _ _ _ _ _) as [w3|err] eqn:E3;
    [|reflexivity].
  pose proof (insert_invoice_activity_Ok _ _ _ _ _ _ _ _ E3) as D3.
  unfold bind at 1. rewrite tx_Exec_run.
  destruct (hd None (tl (tl (skipn (List.length items) (tl (tl fs))))))
    as [err|] eqn:F4; [reflexivity|].
  destruct (insert_recent_activity _ _ _ _ _ _) as [w4|err] eqn:E4;
    [|reflexivity].
  pose proof (insert_recent_activity_Ok _ _ _ _ _ _ _ E4) as D4.
  unfold bind at 1. rewrite Commit_run.
  destruct (hd None (tl (tl (tl (skipn (List.length items) (tl (tl fs)))))))
    as [err|] eqn:F5; [reflexivity|].
  cbn [ret tables tx now faults Rollback].
  split; [reflexivity|]. split.
  { rewrite D4, D3, D2, D1. unfold with_invoice, with_items. reflexivity. }
  split.
  { unfold creation_statements. cbv zeta. now rewrite E1, EI, E2, E3, E4. }
  split; [reflexivity|].
  intros k Hk.
  rewrite hd_skipn in F2.
  rewrite tl_skipn, hd_skipn in F3.
  rewrite !tl_skipn, hd_skipn in F4.
  rewrite !tl_skipn, hd_skipn in F5.
  rewrite hd_nth in F0, F1. rewrite nth_tl in F1.
  destruct k as [|[|k]]; [exact F0 | exact F1 |].
  rewrite <- !nth_tl.
  destruct (Nat.lt_ge_cases k (List.length items)) as [Hlt|Hge];
    [now apply Hitems|].
  assert (Hc : k = List.length items \/ k = Datatypes.S (List.length items)
               \/ k = Datatypes.S (Datatypes.S (List.length items))
               \/ k = Datatypes.S (Datatypes.S (Datatypes.S (List.length items))))
    by lia.
  destruct Hc as [-> | [-> | [-> | ->]]]; assumption.
Qed.

End Transaction.

(** C1. Invoice creation is all or nothing.  The five kinds of inserts run
    inside one transaction.  When the operation returns an error, the
    committed tables are exactly what they were: no invoice, item,
    payment-information, invoice-activity or recent-activity row is left.
    It returns an error as soon as one round trip to the server fails
    (begin, any insert, commit) or one insert is refused by the schema.
    When it succeeds, it returns the invoice identifier, every statement
    has succeeded, and the tables hold the former rows and the new ones. *)
Theorem CreateInvoice_atomic :
  forall (invoice : models.Invoice.t) (items : list models.InvoiceItem.t)
         (customerID : uuid.UUID) (paymentInfo : models.PaymentInformation.t)
         (e : Entropy) (srv : postgres.Server),
    let run := repository.invoiceRepoImpl.CreateInvoice invoice items
                 customerID paymentInfo (e, srv) in
    let statements := creation_statements (postgres.now srv) invoice items
                        customerID paymentInfo (draws e (cursor e))
                        (postgres.tables srv) in
    match run with
    | (Ok id, (_, srv')) =>
        id = models.Invoice.InvoiceID invoice
        /\ statements = Ok (postgres.tables srv')
        /\ postgres.tables srv'
           = with_invoice (postgres.tables srv) (postgres.now srv) invoice
               items customerID paymentInfo (draws e (cursor e))
    | (Err _, (_, srv')) => postgres.tables srv' = postgres.tables srv
    end
    /\ ((exists k, (k < 6 + List.length items)%nat
                   /\ nth k (postgres.faults srv) None <> None) ->
        is_ok (fst run) = false)
    /\ (is_ok statements = false -> is_ok (fst run) = false).
Proof.
  intros invoice items customerID paymentInfo e srv run statements.
  pose proof (CreateInvoice_outcome invoice items customerID paymentInfo e srv)
    as H.
  fold run in H. fold statements in H.
  destruct run as [[id|err] [e' srv']]; simpl.
  - destruct H as (Hid & Htab & Hst & _ & Hf). repeat split; try assumption.
    + intros (k & Hk & Hne). elim Hne. now apply Hf.
    + rewrite Hst. discriminate.
  - repeat split; assumption.
Qed.



(** ** Amounts on their way into the tables *)

Lemma round_hundredths_exact : forall c u,
  0 < u -> 2 * (u / 2) = u ->
  (Z.sgn c * ((Z.abs c + u / 2) / u) * u =? c) = (c mod u =? 0).
Proof.
  intros c u Hu Heven.
  destruct (Z.eqb_spec (c mod u) 0) as [Hm|Hm].
  - apply Z.eqb_eq.
    apply Z.mod_divide in Hm; [|lia]. destruct Hm as [q ->].
    rewrite Z.abs_mul, (Z.abs_eq u) by lia.
    rewrite Z.div_add_l by lia.
    rewrite (Z.div_small (u / 2) u) by lia.
    rewrite Z.add_0_r, Z.sgn_mul, (Z.sgn_pos u) by lia.
    rewrite Z.mul_1_r. f_equal. rewrite Z.mul_comm. apply Z.abs_sgn.
  - apply Z.eqb_neq. intros H. apply Hm.
    rewrite <- H. apply Z.mod_mul. lia.
Qed.

Lemma pow10_even : forall k, 0 < k -> 0 < 10 ^ k /\ 2 * (10 ^ k / 2) = 10 ^ k.
Proof.
  intros k Hk. split; [apply Z.pow_pos_nonneg; lia|].
  assert (E : 10 ^ k = 5 * 10 ^ (k - 1) * 2).
  { replace k with (1 + (k - 1)) at 1 by lia.
    rewrite Z.pow_add_r by lia. change (10 ^ 1) with 10. lia. }
  rewrite E, Z.div_mul by lia. lia.
Qed.

(** What was stored, read back, equals what was sent exactly when that was
    a whole number of hundredths. *)
Lemma round_read_back : forall v,
  float64.eqb (NUMERIC.to_float64 (NUMERIC.round v)) v = whole_hundredths v.
Proof.
  intros [c e| |n]; [|reflexivity|reflexivity].
  unfold NUMERIC.round, NUMERIC.to_float64, float64.eqb, whole_hundredths,
    NUMERIC.round_hundredths.
  destruct (Z.leb_spec (-2) e) as [He|He].
  - rewrite Z.min_l by lia.
    replace (-2 - -2) with 0 by lia. replace (e - -2) with (e + 2) by lia.
    rewrite Z.pow_0_r, Z.mul_1_r. apply Z.eqb_refl.
  - rewrite Z.min_r by lia.
    replace (e - e) with 0 by lia.
    rewrite Z.pow_0_r, Z.mul_1_r. cbn [orb].
    destruct (pow10_even (-2 - e)) as [Hu Heven]; [lia|].
    now apply round_hundredths_exact.
Qed.

Lemma stored_round : forall precision v,
  NUMERIC.overflows precision v = false -> stored precision v (NUMERIC.round v).
Proof.
  intros precision v H. repeat split; [exact H | apply round_read_back].
Qed.







(** ** Invoice details *)

Section Details.
Import models postgres repository.

Lemma in_join : forall {A B} (on : A -> B -> bool) l r a b,
  In a l -> In b r -> on a b = true -> In (a, b) (join l r on).
Proof.
  intros A B on l r a b Ha Hb Hon. unfold join.
  apply in_flat_map. exists a. split; [exact Ha|].
  apply in_map. apply filter_In. now split.
Qed.

Lemma in_left_join_None : forall {A B} (on : A -> B -> bool) l r a,
  In a l -> (forall b, In b r -> on a b = false) ->
  In (a, None) (left_join l r on).
Proof.
  intros A B on l r a Ha Hno. unfold left_join.
  apply in_flat_map. exists a. split; [exact Ha|].
  rewrite (filter_none (on a) r); [now left|].
  apply Forall_forall. exact Hno.
Qed.

Lemma left_join_inv : forall {A B} (on : A -> B -> bool) l r a ob,
  In (a, ob) (left_join l r on) ->
  In a l /\ match ob with
            | Some b => In b r /\ on a b = true
            | None => True
            end.
Proof.
  intros A B on l r a ob H. unfold left_join in H.
  apply in_flat_map in H as (a' & Ha' & H).
  destruct (filter (on a') r) as [|m ms] eqn:F.
  - destruct H as [H|[]]. injection H as -> <-. now split.
  - apply in_map_iff in H as (b & Hb & Hin). injection Hb as -> <-.
    split; [exact Ha'|]. rewrite <- F in Hin. now apply filter_In in Hin.
Qed.

Lemma join_inv : forall {A B} (on : A -> B -> bool) l r a b,
  In (a, b) (join l r on) -> In a l /\ In b r /\ on a b = true.
Proof.
  intros A B on l r a b H. unfold join in H.
  apply in_flat_map in H as (a' & Ha' & H).
  apply in_map_iff in H as (b' & Hb & Hin). injection Hb as -> ->.
  apply filter_In in Hin. tauto.
Qed.

Lemma details_rows_without_payment :
  forall invoiceID d row,
    (forall pi, In pi (payment_information d) ->
                PaymentInformation.InvoiceID pi <> invoiceID) ->
    In row (invoiceRepoImpl.invoice_details_rows invoiceID d) ->
    snd row = None.
Proof.
  intros invoiceID d [[[[i s] c] opi] opm] Hno Hin.
  unfold invoiceRepoImpl.invoice_details_rows in Hin.
  apply filter_In in Hin as [Hin Hid]. apply N.eqb_eq in Hid.
  apply left_join_inv in Hin as [Hin Hpm].
  apply left_join_inv in Hin as [_ Hpi].
  destruct opm as [pm|]; [|reflexivity].
  destruct Hpm as [_ Hon].
  destruct opi as [pi|]; [|discriminate].
  destruct Hpi as [Hpi Heq]. apply N.eqb_eq in Heq.
  exfalso. apply (Hno pi Hpi). congruence.
Qed.

Lemma details_rows_inhabited :
  forall invoiceID d i s c,
    In i (invoices d) -> Invoice.InvoiceID i = invoiceID ->
    In s (users d) -> User.UserID s = Invoice.SenderID i ->
    In c (customers d) -> Customer.CustomerID c = Invoice.CustomerID i ->
    (forall pi, In pi (payment_information d) ->
                PaymentInformation.InvoiceID pi <> invoiceID) ->
    In (i, s, c, None, None) (invoiceRepoImpl.invoice_details_rows invoiceID d).
Proof.
  intros invoiceID d i s c Hi Hid Hs Hsid Hc Hcid Hno.
  unfold invoiceRepoImpl.invoice_details_rows.
  apply filter_In. split; [|now apply N.eqb_eq].
  apply in_left_join_None; [|reflexivity].
  apply in_left_join_None.
  - apply in_join; [|exact Hc|apply N.eqb_eq; congruence].
    apply in_join; [exact Hi|exact Hs|apply N.eqb_eq; congruence].
  - intros pi Hpi. apply N.eqb_neq. intros Heq.
    apply (Hno pi Hpi). congruence.
Qed.

End Details.

(** C3 does not hold of the code.  For an invoice that exists, with its
    sender and its customer, and has no payment-information row, the outer
    joins do produce a row, with NULL in the payment-method columns; but
    the row is scanned into plain strings, the scan of the account name
    fails, and GetInvoiceDetails returns that error instead of details with
    empty payment fields. *)
Theorem GetInvoiceDetails_without_payment_information :
  forall (invoiceID : uuid.UUID) (e : Entropy) (srv : postgres.Server)
         (i : models.Invoice.row) (s : models.User.t) (c : models.Customer.t),
    let d := postgres.tables srv in
    In i (postgres.invoices d) -> models.Invoice.InvoiceID i = invoiceID ->
    In s (postgres.users d) -> models.User.UserID s = models.Invoice.SenderID i ->
    In c (postgres.customers d) ->
    models.Customer.CustomerID c = models.Invoice.CustomerID i ->
    (forall pi, In pi (postgres.payment_information d) ->
                models.PaymentInformation.InvoiceID pi <> invoiceID) ->
    hd None (postgres.faults srv) = None ->
    fst (repository.invoiceRepoImpl.GetInvoiceDetails invoiceID (e, srv))
    = Err "can't scan into dest[24]: cannot scan NULL into *string".
Proof.
  intros invoiceID e srv i s c d Hi Hid Hs Hsid Hc Hcid Hno Hfault.
  pose proof (details_rows_inhabited invoiceID d i s c Hi Hid Hs Hsid Hc Hcid Hno)
    as Hin.
  pose proof (details_rows_without_payment invoiceID d) as Hnone.
  unfold repository.invoiceRepoImpl.GetInvoiceDetails.
  unfold bind at 1. unfold postgres.pool_Query at 1, postgres.next_fault.
  rewrite Hfault. cbn [postgres.tables]. fold d.
  destruct (repository.invoiceRepoImpl.invoice_details_rows invoiceID d)
    as [|row rows]; [destruct Hin|].
  specialize (Hnone row Hno (or_introl eq_refl)).
  destruct row as [[[[i' s'] c'] opi] opm]. simpl in Hnone. subst opm.
  reflexivity.
Qed.

Lemma GetInvoiceDetails_without_payment_information_witness :
  fst (repository.invoiceRepoImpl.GetInvoiceDetails 9%N
         (sample.entropy, sample.server sample.tables_bare []))
  = Err "can't scan into dest[24]: cannot scan NULL into *string".
Proof.
  apply (GetInvoiceDetails_without_payment_information 9%N sample.entropy
           (sample.server sample.tables_bare [])
           sample.bare_invoice sample.sender sample.customer
           (or_introl eq_refl) eq_refl (or_introl eq_refl) eq_refl
           (or_introl eq_refl) eq_refl
           (fun pi (H : In pi []) => match H with end) eq_refl).
Defined.

(** ** The program run on sample data *)

Section Examples.
Import models postgres repository.
Local Existing Instance reference.libraries.

(** A valid request through the service and the real repository. *)
Example creation_succeeds :
  let '(r, (_, srv')) :=
    service.CreateInvoice invoiceRepoImpl.new sample.request
      (sample.entropy, sample.server sample.tables0 []) in
  r = Ok 1000%N
  /\ map Invoice.FinalAmount (invoices (tables srv')) = [NUMERIC.Num 90000]
  /\ map InvoiceItem.TotalPrice (invoice_items (tables srv'))
     = [NUMERIC.Num 100000]
  /\ map PaymentInformation.PaymentMethodID (payment_information (tables srv')) = [3%N]
  /\ map InvoiceActivity.Title (invoice_activities (tables srv')) = ["Invoice Creation"]
  /\ map RecentActivity.Title (recent_activities (tables srv')) = ["Invoice Creation"].
Proof. vm_compute. repeat split. Qed.

(** The commit fails: an error, and the tables as before. *)
Example creation_commit_fails :
  let '(r, (_, srv')) :=
    service.CreateInvoice invoiceRepoImpl.new sample.request
      (sample.entropy,
       sample.server sample.tables0
         [None; None; None; None; None; None; Some "conn closed"]) in
  r = Err "conn closed" /\ tables srv' = sample.tables0.
Proof. vm_compute. split; reflexivity. Qed.

(** The payment method does not exist: the fourth statement is refused
    after the invoice and its item went in, and nothing is left of them. *)
Example creation_unknown_payment_method :
  let '(r, (_, srv')) :=
    invoiceRepoImpl.CreateInvoice
      (Invoice.mk 9%N "1234567890" 1%N 2%N 1682899200 1685491200
         (float64.Finite 1000 0) (float64.Finite 10 0) (float64.Finite 100 0)
         (float64.Finite 900 0) "paid" "USD" "Thanks" 0 0)
      [InvoiceItem.mk 20%N 9%N "Item 1" "Description 1" 1
         (float64.Finite 100 0) (float64.Finite 100 0) 0 0]
      2%N (PaymentInformation.mk 21%N 9%N 404%N 0 0)
      (sample.entropy, sample.server sample.tables0 []) in
  r = Err "insert on payment_information violates foreign key constraint on payment_method_id"
  /\ tables srv' = sample.tables0.
Proof. vm_compute. split; reflexivity. Qed.

(** A total of 99999999.995 rounds to 100000000.00, one digit more than
    [NUMERIC(10,2)] holds: the first statement is refused, and the tables
    are as before. *)
Example creation_amount_out_of_range :
  let '(r, (_, srv')) :=
    service.CreateInvoice invoiceRepoImpl.new
      (CreateInvoiceRequest.mk
         (InvoiceInfo.mk "00000000-0000-0000-0000-000000000001"
            "2023-05-01" "2023-05-31"
            (float64.Finite 99999999995 (-3)) (float64.Finite 10 0)
            (float64.Finite 100 0) (float64.Finite 900 0)
            "pending" "USD" "Test invoice")
         "00000000-0000-0000-0000-000000000002"
         "00000000-0000-0000-0000-000000000003" [])
      (sample.entropy, sample.server sample.tables0 []) in
  r = Err "numeric field overflow" /\ tables srv' = sample.tables0.
Proof. vm_compute. split; reflexivity. Qed.

(** The six validation failures of the unit tests, in order. *)
Example validation_messages :
  let run info customer method :=
    fst (service.CreateInvoice (mocked.MockInvoiceRepository sample.returns)
           (CreateInvoiceRequest.mk info customer method [])
           (sample.entropy, [])) in
  let good := "00000000-0000-0000-0000-000000000001" in
  let info sender issue due status :=
    InvoiceInfo.mk sender issue due (float64.Finite 0 0) (float64.Finite 0 0)
      (float64.Finite 0 0) (float64.Finite 0 0) status "" "" in
  run (info "invalid-uuid" "" "" "") good good = Err "invalid sender id"
  /\ run (info good "" "" "") "invalid-uuid" good = Err "invalid customer id"
  /\ run (info good "" "" "INVALID_STATUS") good good
     = Err "invalid invoice status: INVALID_STATUS"
  /\ run (info good "01-05-2023" "2023-05-31" "pending") good good
     = Err "issue date has invalid date format"
  /\ run (info good "2023-05-01" "31-05-2023" "pending") good good
     = Err "due date has invalid date format"
  /\ run (info good "2023-05-01" "2023-05-31" "pending") good "invalid-uuid"
     = Err "invalid payment method id"
  /\ run (info good "2023-05-01" "2023-05-31" "pending") good good = Ok 77%N.
Proof. vm_compute. repeat split. Qed.

(** Several checks fail at once: the first in order is reported. *)
Example validation_first_failure_wins :
  service.CreateInvoice (mocked.MockInvoiceRepository sample.returns)
    (CreateInvoiceRequest.mk
       (InvoiceInfo.mk "00000000-0000-0000-0000-000000000001"
          "yesterday" "tomorrow" (float64.Finite 0 0) (float64.Finite 0 0)
          (float64.Finite 0 0) (float64.Finite 0 0) "PAID" "" "")
       "nobody" "nothing" [])
    (sample.entropy, [])
  = (Err "invalid customer id", (mkEntropy (draws sample.entropy) 1, [])).
Proof. reflexivity. Qed.

(** The paginations of the unit tests, and values that are let through. *)
Example pagination_examples :
  let calls page limit :=
    snd (snd (service.GetRecentInvoices
                (mocked.MockInvoiceRepository sample.returns)
                5%N page limit (sample.entropy, []))) in
  calls 1 10 = [mocked.GetRecentInvoices 5%N 10 0]
  /\ calls 2 10 = [mocked.GetRecentInvoices 5%N 10 10]
  /\ calls 10 10 = [mocked.GetRecentInvoices 5%N 10 90]
  /\ calls 0 10 = [mocked.GetRecentInvoices 5%N 10 (-10)]
  /\ calls 3 (-4) = [mocked.GetRecentInvoices 5%N (-4) (-8)]
  /\ calls 65537 65536 = [mocked.GetRecentInvoices 5%N 65536 0].
Proof. vm_compute. repeat split. Qed.

Example query_parameters :
  let params q := controller.getPaginationParams (controller.gin.mkContext [] q) in
  params [] = (10, 1)
  /\ params [("limit", "25"); ("page", "3")] = (25, 3)
  /\ params [("limit", "abc"); ("page", "")] = (10, 1)
  /\ params [("limit", "0"); ("page", "-2")] = (0, -2)
  /\ params [("limit", "+7"); ("page", "1_0")] = (7, 1)
  /\ params [("limit", "-2147483648"); ("page", "2147483647")]
     = (-2147483648, 2147483647)
  /\ params [("limit", "99999999999"); ("page", "-2147483649")] = (10, 1).
Proof. vm_compute. repeat split. Qed.

(** A zero limit and a negative page reach the repository as they are. *)
Example handler_passes_parameters :
  snd (snd (controller.GetRecentInvoices
              (mocked.MockInvoiceRepository sample.returns)
              (controller.gin.mkContext
                 [("senderID", "00000000-0000-0000-0000-000000000005")]
                 [("limit", "0"); ("page", "-2")])
              (sample.entropy, [])))
  = [mocked.GetRecentInvoices 5%N 0 0].
Proof. reflexivity. Qed.

(** With its payment information, the invoice just created is read back
    in full: one item, the creation activity, the bank details. *)
Example details_after_creation :
  let '(_, w) :=
    service.CreateInvoice invoiceRepoImpl.new sample.request
      (sample.entropy, sample.server sample.tables0 []) in
  match fst (invoiceRepoImpl.GetInvoiceDetails 1000%N w) with
  | Ok details =>
      InvoiceDetails.SenderName details = "Ada Lovelace"
      /\ InvoiceDetails.CustomerName details = "Charles"
      /\ UserPaymentMethod.BankName (InvoiceDetails.PaymentInformation details)
         = "First Bank"
      /\ List.length (InvoiceDetails.Items details) = 1%nat
      /\ map InvoiceActivity.Title (InvoiceDetails.Activities details)
         = ["Invoice Creation"]
  | Err _ => False
  end.
Proof. vm_compute. repeat split. Qed.

(** No such invoice. *)
Example details_not_found :
  fst (invoiceRepoImpl.GetInvoiceDetails 404%N
         (sample.entropy, sample.server sample.tables0 []))
  = Err "no rows in result set".
Proof. reflexivity. Qed.

(** Totals over an empty table and after one creation. *)
Example totals :
  let '(_, w) :=
    service.CreateInvoice invoiceRepoImpl.new sample.request
      (sample.entropy, sample.server sample.tables0 []) in
  fst (invoiceRepoImpl.GetTotalByStatus "pending"
         (sample.entropy, sample.server sample.tables0 []))
    = Ok (float64.Finite 0 (-2), 0)
  /\ fst (invoiceRepoImpl.GetTotalByStatus "pending" w)
     = Ok (float64.Finite 90000 (-2), 1)
  /\ fst (invoiceRepoImpl.GetTotalByStatus "paid" w)
     = Ok (float64.Finite 0 (-2), 0).
Proof. vm_compute. repeat split. Qed.

End Examples.
